(** * LeituraPulsos: pulse capture with adaptive debounce (ESP32-S3 sketch)

    A shallow embedding of the interrupt routine [pulseInterrupt], of the
    threshold recomputation [updateAdaptiveDebounce] and of the two reset
    routines [resetCounter] and [autoResetCounter] of
    [src/LeituraPulsos.ino], followed by the properties the specification
    states about them.

    Machine model.  The target is the ESP32-S3 (ILP32): [unsigned long] is a
    32-bit unsigned integer and [int] a 32-bit signed one.  Every
    [unsigned long] is a [Z] and every arithmetic operation of the sketch on
    such values is written with its reduction modulo [2^32].  The two [int]
    variables ([validCount], [historyIndex]) stay within [0..5], so no
    wrap-around is written for them.  The five-slot array [pulseHistory] is a
    [list Z]; the sketch only indexes it with [0..4].

    The hardware clock is an input: [pulseInterrupt] takes the value
    [micros()] returned, [resetCounter] the value [millis()] returned.  What
    the routines print on the serial port changes no variable and is left
    out. *)

From Stdlib Require Import ZArith Lia Bool Ascii.
From stdpp Require Import base option list.

Local Open Scope Z_scope.

(** ** 32-bit unsigned arithmetic *)

Module U32.

Definition modulus : Z := 2 ^ 32.

Definition wrap (z : Z) : Z := z mod modulus.

Definition add (a b : Z) : Z := wrap (a + b).
Definition sub (a b : Z) : Z := wrap (a - b).
Definition mul (a b : Z) : Z := wrap (a * b).

(** Unsigned division; the divisor is checked where the claim is about it
    (see [udiv_checked]). *)
Definition div (a b : Z) : Z := a / b.

Definition udiv_checked (a b : Z) : option Z :=
  if b =? 0 then None else Some (a / b).

Definition in_range (z : Z) : Prop := 0 <= z < modulus.

End U32.

(** ** Configuration constants ([#define]s of the sketch) *)

Definition DEBOUNCE_TIME_US_MIN : Z := 100.
Definition DEBOUNCE_TIME_US_MAX : Z := 5000.
Definition DEBOUNCE_TIME_US_DEFAULT : Z := 1000.
Definition AUTO_RESET_ENABLED : bool := true.

(** ** The variables shared between the interrupt routine and the loop *)

Record State : Type := mkState {
  pulseCount : Z;             (* volatile unsigned long pulseCount *)
  lastPulseTime : Z;          (* volatile unsigned long lastPulseTime *)
  pulseInterval : Z;          (* volatile unsigned long pulseInterval *)
  newPulseReceived : bool;    (* volatile bool newPulseReceived *)
  currentDebounceTime : Z;    (* volatile unsigned long currentDebounceTime *)
  pulseHistory : list Z;      (* volatile unsigned long pulseHistory[5] *)
  historyIndex : Z            (* volatile int historyIndex *)
}.

(** The loop-side variable the manual reset also writes. *)
Record Sketch : Type := mkSketch {
  shared : State;
  lastResetTime : Z           (* unsigned long lastResetTime *)
}.

Definition set_pulseCount (v : Z) (s : State) : State :=
  mkState v (lastPulseTime s) (pulseInterval s) (newPulseReceived s)
          (currentDebounceTime s) (pulseHistory s) (historyIndex s).
Definition set_lastPulseTime (v : Z) (s : State) : State :=
  mkState (pulseCount s) v (pulseInterval s) (newPulseReceived s)
          (currentDebounceTime s) (pulseHistory s) (historyIndex s).
Definition set_pulseInterval (v : Z) (s : State) : State :=
  mkState (pulseCount s) (lastPulseTime s) v (newPulseReceived s)
          (currentDebounceTime s) (pulseHistory s) (historyIndex s).
Definition set_newPulseReceived (v : bool) (s : State) : State :=
  mkState (pulseCount s) (lastPulseTime s) (pulseInterval s) v
          (currentDebounceTime s) (pulseHistory s) (historyIndex s).
Definition set_currentDebounceTime (v : Z) (s : State) : State :=
  mkState (pulseCount s) (lastPulseTime s) (pulseInterval s) (newPulseReceived s)
          v (pulseHistory s) (historyIndex s).
Definition set_pulseHistory (v : list Z) (s : State) : State :=
  mkState (pulseCount s) (lastPulseTime s) (pulseInterval s) (newPulseReceived s)
          (currentDebounceTime s) v (historyIndex s).
Definition set_historyIndex (v : Z) (s : State) : State :=
  mkState (pulseCount s) (lastPulseTime s) (pulseInterval s) (newPulseReceived s)
          (currentDebounceTime s) (pulseHistory s) v.

(** The initialisers of the global declarations: the state at power-on. *)
Definition power_on : State :=
  mkState 0 0 0 false DEBOUNCE_TIME_US_DEFAULT [0; 0; 0; 0; 0] 0.

(** ** Array access

    [pulseHistory[i]] read.  The sketch only reads slots [0..4]; a read
    outside the list, which is undefined behaviour in C, gives the default
    value of the list lookup here and plays no part in any statement. *)
Definition array_get (h : list Z) (i : Z) : Z := h !!! Z.to_nat i.

(** [pulseHistory[i] = v].  An index outside [0..4] is undefined behaviour in
    C; here it leaves the array as it is.  [debounce_inv] below shows that
    [historyIndex] never leaves [0..4]. *)
Definition array_set (h : list Z) (i : Z) (v : Z) : list Z :=
  if bool_decide (0 <= i < 5) then <[Z.to_nat i := v]> h else h.

(** ** updateAdaptiveDebounce *)

(** One iteration of [for (int i = 0; i < 5; i++)]: the accumulator is
    [(sum, validCount)]. *)
Definition scan_step (h : list Z) (acc : Z * Z) (i : Z) : Z * Z :=
  if 0 <? array_get h i
  then (U32.add (fst acc) (array_get h i), snd acc + 1)
  else acc.

Definition scan_history (h : list Z) : Z * Z :=
  foldl (scan_step h) (0, 0) (seqZ 0 5).

Definition history_sum (h : list Z) : Z := fst (scan_history h).
Definition history_validCount (h : list Z) : Z := snd (scan_history h).

(** [averageInterval = sum / validCount] *)
Definition averageInterval (h : list Z) : Z :=
  U32.div (history_sum h) (history_validCount h).

(** [newDebounce = averageInterval / 12], before the limits are applied. *)
Definition rawDebounce (h : list Z) : Z := U32.div (averageInterval h) 12.

(** The [if ... else if ...] that applies the two limits. *)
Definition clampDebounce (newDebounce : Z) : Z :=
  if newDebounce <? DEBOUNCE_TIME_US_MIN then DEBOUNCE_TIME_US_MIN
  else if DEBOUNCE_TIME_US_MAX <? newDebounce then DEBOUNCE_TIME_US_MAX
  else newDebounce.

(** [newDebounce] after the limits. *)
Definition newDebounce (h : list Z) : Z := clampDebounce (rawDebounce h).

(** [(currentDebounceTime * 7 + newDebounce * 3) / 10] *)
Definition smooth (current new : Z) : Z :=
  U32.div (U32.add (U32.mul current 7) (U32.mul new 3)) 10.

Definition updateAdaptiveDebounce (s : State) : State :=
  if 2 <=? history_validCount (pulseHistory s)
  then set_currentDebounceTime
         (smooth (currentDebounceTime s) (newDebounce (pulseHistory s))) s
  else s.

(** The same routine with every division checked: [None] stands for a
    division by zero. *)
Definition updateAdaptiveDebounce_checked (s : State) : option State :=
  let h := pulseHistory s in
  if 2 <=? history_validCount h then
    avg ← U32.udiv_checked (history_sum h) (history_validCount h);
    raw ← U32.udiv_checked avg 12;
    blended ← U32.udiv_checked
                (U32.add (U32.mul (currentDebounceTime s) 7)
                         (U32.mul (clampDebounce raw) 3)) 10;
    Some (set_currentDebounceTime blended s)
  else Some s.

(** ** pulseInterrupt *)

(** [currentTime - lastPulseTime], where [currentTime] is what [micros()]
    returned. *)
Definition edge_interval (currentTime : Z) (s : State) : Z :=
  U32.sub currentTime (lastPulseTime s).

Definition pulseInterrupt (currentTime : Z) (s : State) : State :=
  if currentDebounceTime s <? edge_interval currentTime s then
    let s1 := set_pulseInterval (edge_interval currentTime s) s in
    let s2 := set_lastPulseTime currentTime s1 in
    let s3 := set_pulseHistory
                (array_set (pulseHistory s2) (historyIndex s2) (pulseInterval s2)) s2 in
    let s4 := set_historyIndex (Z.rem (historyIndex s3 + 1) 5) s3 in
    let s5 := updateAdaptiveDebounce s4 in
    let s6 := set_pulseCount (U32.add (pulseCount s5) 1) s5 in
    set_newPulseReceived true s6
  else s.

(** ** The two reset routines *)

(** [for (int i = 0; i < 5; i++) pulseHistory[i] = 0;] *)
Definition clear_history (h : list Z) : list Z :=
  foldl (fun h i => array_set h i 0) h (seqZ 0 5).

(** [autoResetCounter]: the serial report it prints afterwards reads only the
    local copies taken before the reset and writes no variable. *)
Definition autoResetCounter (k : Sketch) : Sketch :=
  let s := shared k in
  let s := set_pulseCount 0 s in
  let s := set_lastPulseTime 0 s in
  let s := set_pulseInterval 0 s in
  let s := set_newPulseReceived false s in
  let s := set_currentDebounceTime DEBOUNCE_TIME_US_DEFAULT s in
  let s := set_historyIndex 0 s in
  let s := set_pulseHistory (clear_history (pulseHistory s)) s in
  mkSketch s (lastResetTime k).

(** [resetCounter]: [millis] is what [millis()] returns inside the critical
    section. *)
Definition resetCounter (millis : Z) (k : Sketch) : Sketch :=
  let s := shared k in
  let s := set_pulseCount 0 s in
  let s := set_lastPulseTime 0 s in
  let s := set_pulseInterval 0 s in
  let s := set_newPulseReceived false s in
  let s := set_currentDebounceTime DEBOUNCE_TIME_US_DEFAULT s in
  let s := set_historyIndex 0 s in
  let s := set_pulseHistory (clear_history (pulseHistory s)) s in
  mkSketch s (if AUTO_RESET_ENABLED then millis else lastResetTime k).

(** ** The operations as a transition system *)

(** The operations of the specification on the capture and debounce state:
    [handle_edge] is [pulseInterrupt], [recompute] is
    [updateAdaptiveDebounce], [reset] is either reset routine. *)
Inductive Op : Type :=
  | HandleEdge (micros : Z)
  | Recompute
  | ManualReset (millis : Z)
  | AutoReset.

Definition with_shared (f : State -> State) (k : Sketch) : Sketch :=
  mkSketch (f (shared k)) (lastResetTime k).

Definition apply_op (o : Op) (k : Sketch) : Sketch :=
  match o with
  | HandleEdge t => with_shared (pulseInterrupt t) k
  | Recompute => with_shared updateAdaptiveDebounce k
  | ManualReset t => resetCounter t k
  | AutoReset => autoResetCounter k
  end.

Definition boot : Sketch := mkSketch power_on 0.

Inductive reachable : Sketch -> Prop :=
  | reachable_boot : reachable boot
  | reachable_step o k : reachable k -> reachable (apply_op o k).

(** The invariant of the debounce state. *)
Definition debounce_inv (s : State) : Prop :=
  DEBOUNCE_TIME_US_MIN <= currentDebounceTime s <= DEBOUNCE_TIME_US_MAX
  /\ 0 <= historyIndex s < 5.

(** What the C declarations give for free: the array has five slots. *)
Definition five_slots (s : State) : Prop := length (pulseHistory s) = 5%nat.

(** ** Sequences of edges *)

Definition run (ts : list Z) (s : State) : State :=
  foldl (fun s t => pulseInterrupt t s) s ts.

(** Every edge of [ts] arrives with an interval above the threshold in effect
    when it arrives. *)
Fixpoint all_accepted (ts : list Z) (s : State) : Prop :=
  match ts with
  | [] => True
  | t :: ts' =>
      currentDebounceTime s < edge_interval t s
      /\ all_accepted ts' (pulseInterrupt t s)
  end.

(** ** Repeated recomputation on a fixed history *)



(** One recomputation seen from the threshold: the blend of the current
    threshold [T] with a candidate [c] that stays the same. *)
Definition blend_step (c T : Z) : Z := smooth T c.

(** ** The specification's vocabulary *)

(** [valid_count] as the specification words it: the number of non-zero
    history entries. *)
Definition count_nonzero (h : list Z) : Z :=
  Z.of_nat (length (filter (fun x => x <> 0) h)).

(** ** The polling side of the sketch

    [loop], [checkButtonPress] and the formatting helpers.  What is printed
    on the serial port is kept as a trace of the values printed; the two
    floating-point figures (instantaneous and average frequency) are not
    part of it.  An iteration of [loop] is modelled without an edge
    interrupting it: edges come between iterations. *)

Definition BUTTON_DEBOUNCE_MS : Z := 50.
Definition DISPLAY_INTERVAL : Z := 1000.
Definition AUTO_RESET_INTERVAL : Z := 30000.

(** Pin levels as [bool]: [HIGH] is [true]. *)
Definition HIGH : bool := true.
Definition LOW : bool := false.

(** The shared variables together with the variables only the loop uses. *)
Record Board : Type := mkBoard {
  sketch : Sketch;
  lastDisplayTime : Z;        (* unsigned long lastDisplayTime *)
  lastButtonState : bool;     (* bool lastButtonState *)
  lastButtonTime : Z;         (* unsigned long lastButtonTime *)
  lastPulseCount : Z          (* static unsigned long lastPulseCount, in loop() *)
}.

Definition set_sketch (v : Sketch) (b : Board) : Board :=
  mkBoard v (lastDisplayTime b) (lastButtonState b) (lastButtonTime b)
          (lastPulseCount b).
Definition set_lastDisplayTime (v : Z) (b : Board) : Board :=
  mkBoard (sketch b) v (lastButtonState b) (lastButtonTime b) (lastPulseCount b).
Definition set_lastButtonState (v : bool) (b : Board) : Board :=
  mkBoard (sketch b) (lastDisplayTime b) v (lastButtonTime b) (lastPulseCount b).
Definition set_lastButtonTime (v : Z) (b : Board) : Board :=
  mkBoard (sketch b) (lastDisplayTime b) (lastButtonState b) v (lastPulseCount b).
Definition set_lastPulseCount (v : Z) (b : Board) : Board :=
  mkBoard (sketch b) (lastDisplayTime b) (lastButtonState b) (lastButtonTime b) v.

(** The initialisers of the loop-side globals. *)
Definition board_on : Board := mkBoard boot 0 HIGH 0 0.

(** What the sketch prints, by the values it prints. *)
Inductive Printed : Type :=
  | ManualResetBanner
  | AutoResetBanner (totalPulses elapsedTime : Z)
  | PulseLine (timestamp count interval debounce : Z)
  | PeriodicReport (elapsedMinutes remainingSeconds total pulsesInLastSecond : Z).

(** [checkButtonPress]: [millis] and [level] are what [millis()] and
    [digitalRead(BUTTON_PIN)] return; [reset_millis] is what [millis()]
    returns inside [resetCounter], when it is called. *)
Definition checkButtonPress (millis : Z) (level : bool) (reset_millis : Z)
    (b : Board) : Board * list Printed :=
  let currentTime := millis in
  let currentButtonState := level in
  if negb (eqb currentButtonState (lastButtonState b))
     && (BUTTON_DEBOUNCE_MS <? U32.sub currentTime (lastButtonTime b))
  then
    let b1 := set_lastButtonTime currentTime b in
    let '(b2, out) :=
      if eqb currentButtonState LOW && eqb (lastButtonState b1) HIGH
      then (set_sketch (resetCounter reset_millis (sketch b1)) b1,
            [ManualResetBanner])
      else (b1, []) in
    (set_lastButtonState currentButtonState b2, out)
  else (b, []).

(** The two figures [autoResetCounter] saves before it clears the
    variables: [totalPulses] and [elapsedTime]. *)
Definition autoResetCounter_saved (millis : Z) (k : Sketch) : Z * Z :=
  (pulseCount (shared k),
   U32.sub millis (U32.sub (lastResetTime k) AUTO_RESET_INTERVAL)).

(** The clock and pin readings of one iteration of [loop], in the order
    the sketch takes them. *)
Record Readings : Type := mkReadings {
  loop_millis : Z;            (* millis() at the top of loop() *)
  button_millis : Z;          (* millis() in checkButtonPress() *)
  button_level : bool;        (* digitalRead(BUTTON_PIN) *)
  manual_millis : Z;          (* millis() in resetCounter(), if called *)
  auto_millis : Z             (* millis() in autoResetCounter(), if called *)
}.

(** The automatic reset of [loop]. *)
Definition loop_auto_reset (r : Readings) (b : Board) : Board * list Printed :=
  let currentTime := loop_millis r in
  if AUTO_RESET_ENABLED
     && (AUTO_RESET_INTERVAL <=? U32.sub currentTime (lastResetTime (sketch b)))
  then
    let k := mkSketch (shared (sketch b)) currentTime in
    let '(totalPulses, elapsedTime) := autoResetCounter_saved (auto_millis r) k in
    (set_sketch (autoResetCounter k) b, [AutoResetBanner totalPulses elapsedTime])
  else (b, []).

(** The processing of a new pulse in [loop]. *)
Definition loop_new_pulse (r : Readings) (b : Board) : Board * list Printed :=
  let currentTime := loop_millis r in
  if newPulseReceived (shared (sketch b)) then
    let s := set_newPulseReceived false (shared (sketch b)) in
    (set_sketch (mkSketch s (lastResetTime (sketch b))) b,
     [PulseLine currentTime (pulseCount s) (pulseInterval s)
                (currentDebounceTime s)])
  else (b, []).

(** The periodic report of [loop]. *)
Definition loop_report (r : Readings) (b : Board) : Board * list Printed :=
  let currentTime := loop_millis r in
  if DISPLAY_INTERVAL <=? U32.sub currentTime (lastDisplayTime b) then
    let b1 := set_lastDisplayTime currentTime b in
    let count := pulseCount (shared (sketch b1)) in
    let pulsesInLastSecond := U32.sub count (lastPulseCount b1) in
    let b2 := set_lastPulseCount count b1 in
    let elapsedSeconds := U32.div currentTime 1000 in
    let elapsedMinutes := U32.div elapsedSeconds 60 in
    let remainingSeconds := elapsedSeconds mod 60 in
    (b2, [PeriodicReport elapsedMinutes remainingSeconds count pulsesInLastSecond])
  else (b, []).

Definition loop (r : Readings) (b : Board) : Board * list Printed :=
  let '(b1, out1) :=
    checkButtonPress (button_millis r) (button_level r) (manual_millis r) b in
  let '(b2, out2) := loop_auto_reset r b1 in
  let '(b3, out3) := loop_new_pulse r b2 in
  let '(b4, out4) := loop_report r b3 in
  (b4, out1 ++ out2 ++ out3 ++ out4).

(** An edge interrupt between two iterations of [loop]. *)
Definition edge (micros : Z) (b : Board) : Board :=
  set_sketch (with_shared (pulseInterrupt micros) (sketch b)) b.

(** *** Formatting *)

(** [padStart]: [str.length() < targetLength] compares an [unsigned int]
    with an [int], so [targetLength] is converted to unsigned.  Each round
    of the [while] loop puts one [padChar] in front. *)
Fixpoint padStart_loop (rounds : nat) (str : list ascii) (targetLength : Z)
    (padChar : ascii) : list ascii :=
  match rounds with
  | O => str
  | S rounds' =>
      if Z.of_nat (length str) <? U32.wrap targetLength
      then padStart_loop rounds' (padChar :: str) targetLength padChar
      else str
  end.

(** The loop runs until its test fails; [U32.wrap targetLength] rounds are
    always enough (see [padStart_loop_done]). *)
Definition padStart (str : list ascii) (targetLength : Z) (padChar : ascii)
    : list ascii :=
  padStart_loop (Z.to_nat (U32.wrap targetLength)) str targetLength padChar.

(** [formatNumber]: [String_ul] stands for the Arduino core's
    [String(unsigned long)], which is not part of the sketch. *)
Definition formatNumber (String_ul : Z -> list ascii) (number width : Z)
    : list ascii :=
  padStart (String_ul number) width " "%char.

(** The text [loop] prints between ["Tempo: "] and the closing bar of the
    first line of the periodic report, with the padding computed by the
    [for (int i = totalChars; i < 28; i++)] loop.  [Serial.print] of an
    [unsigned long] and [String(unsigned long)] both give the decimal
    rendering; [String_ul] stands for it in the text and in the count. *)
Definition report_time_field (String_ul : Z -> list ascii)
    (elapsedMinutes remainingSeconds : Z) : list ascii :=
  let minutes_text :=
    if 0 <? elapsedMinutes
    then String_ul elapsedMinutes ++ ["m"; "i"; "n"; " "]%char
    else [] in
  let text := minutes_text ++ String_ul remainingSeconds ++ ["s"%char] in
  let totalChars :=
    Z.of_nat (length (String_ul elapsedMinutes))
    + Z.of_nat (length (String_ul remainingSeconds))
    + (if 0 <? elapsedMinutes then 5 else 1) in
  let spaces :=
    foldl (fun spaces _ => spaces ++ [" "%char]) []
          (seqZ totalChars (28 - totalChars)) in
  text ++ spaces.

(** A decimal printer for unsigned 32-bit values (at most ten digits), used
    where a concrete [String_ul] is needed. *)
Fixpoint decimal_digits (digits : nat) (n : Z) : list ascii :=
  match digits with
  | O => []
  | S digits' =>
      let d := ascii_of_nat (48 + Z.to_nat (n mod 10)) in
      if n <? 10 then [d] else decimal_digits digits' (n / 10) ++ [d]
  end.

Definition decimal (n : Z) : list ascii := decimal_digits 10 n.

(** *** Sequences of polls and edges, and tests on the trace *)

(** Successive calls of [checkButtonPress], each with its readings
    [(millis, level, reset_millis)]. *)
Fixpoint poll_button (polls : list (Z * bool * Z)) (b : Board)
    : Board * list Printed :=
  match polls with
  | [] => (b, [])
  | (millis, level, reset_millis) :: polls' =>
      let '(b1, out1) := checkButtonPress millis level reset_millis b in
      let '(b2, out2) := poll_button polls' b1 in
      (b2, out1 ++ out2)
  end.

(** Edge interrupts one after the other, between two iterations of [loop]. *)
Definition edges (ts : list Z) (b : Board) : Board :=
  foldl (fun b t => edge t b) b ts.

Definition is_pulse_line (p : Printed) : bool :=
  match p with PulseLine _ _ _ _ => true | _ => false end.
Definition is_manual_banner (p : Printed) : bool :=
  match p with ManualResetBanner => true | _ => false end.
Definition is_auto_banner (p : Printed) : bool :=
  match p with AutoResetBanner _ _ => true | _ => false end.
Definition is_reset_banner (p : Printed) : bool :=
  is_manual_banner p || is_auto_banner p.

(** The button press [checkButtonPress] acts on: the pin reads [LOW], the
    last registered level is [HIGH], and more than [BUTTON_DEBOUNCE_MS] have
    passed since the last registered change. *)
Definition press_registered (millis : Z) (level : bool) (b : Board) : bool :=
  eqb level LOW && eqb (lastButtonState b) HIGH
  && (BUTTON_DEBOUNCE_MS <? U32.sub millis (lastButtonTime b)).

(** The exact sum of the history entries, without wrap-around. *)
Definition exact_sum (h : list Z) : Z := foldr Z.add 0 h.

(** The intervals of a sequence of edges as they arrive, each measured from
    the edge before it (the first from [last]). *)
Fixpoint arrival_intervals (last : Z) (ts : list Z) : list Z :=
  match ts with
  | [] => []
  | t :: ts' => U32.sub t last :: arrival_intervals t ts'
  end.

(** What the C types give: five slots, and every [unsigned long] the
    interrupt routine computes within 32 bits. *)
Definition well_formed (s : State) : Prop :=
  five_slots s
  /\ Forall U32.in_range (pulseHistory s)
  /\ U32.in_range (pulseCount s)
  /\ U32.in_range (pulseInterval s)
  /\ U32.in_range (currentDebounceTime s).


(** The states the sketch runs through after power-on: edge interrupts and
    the four stages of [loop], with any clock and pin readings, in any
    order.  The stages are separate steps, so an edge may also come between
    two stages of one iteration; each stage writes the shared variables in
    one piece (a reset inside its [noInterrupts()] section, the pulse stage
    by the single store that clears the flag). *)
Inductive running : Board -> Prop :=
  | running_on : running board_on
  | running_edge micros b :
      running b -> running (edge micros b)
  | running_button millis level reset_millis b :
      running b -> running (fst (checkButtonPress millis level reset_millis b))
  | running_auto_reset r b :
      running b -> running (fst (loop_auto_reset r b))
  | running_new_pulse r b :
      running b -> running (fst (loop_new_pulse r b))
  | running_report r b :
      running b -> running (fst (loop_report r b)).

(** ** Sanity checks of the embedding on concrete inputs *)

Example scan_example :
  scan_history [1000; 0; 250; 0; 0] = (1250, 2).
Proof. reflexivity. Qed.

Example first_edge_example :
  pulseInterrupt 2000 power_on
  = mkState 1 2000 2000 true 1000 [2000; 0; 0; 0; 0] 1.
Proof. reflexivity. Qed.

Example second_edge_example :
  pulseInterrupt 5000 (pulseInterrupt 2000 power_on)
  = mkState 2 5000 3000 true 762 [2000; 3000; 0; 0; 0] 2.
Proof. reflexivity. Qed.

(** ** Basic facts about the machine arithmetic and the helper definitions *)

Lemma modulus_value : U32.modulus = 4294967296.
Proof. reflexivity. Qed.

Lemma wrap_range (z : Z) : 0 <= U32.wrap z < 4294967296.
Proof.
  unfold U32.wrap. rewrite modulus_value.
  apply Z.mod_pos_bound. lia.
Qed.

Lemma wrap_small (z : Z) : 0 <= z < 4294967296 -> U32.wrap z = z.
Proof.
  intros Hz. unfold U32.wrap. rewrite modulus_value.
  apply Z.mod_small. exact Hz.
Qed.

Lemma wrap_succ_neq (c : Z) : U32.add c 1 <> c.
Proof.
  unfold U32.add. intros Heq.
  pose proof (wrap_range (c + 1)) as Hr. rewrite Heq in Hr.
  destruct (Z.eq_dec c 4294967295) as [-> | Hne].
  - discriminate Heq.
  - rewrite wrap_small in Heq by lia. lia.
Qed.

(** The loop of [updateAdaptiveDebounce], unrolled. *)
Lemma scan_history_unrolled (h : list Z) :
  scan_history h
  = scan_step h (scan_step h (scan_step h (scan_step h
      (scan_step h (0, 0) 0) 1) 2) 3) 4.
Proof. reflexivity. Qed.

Lemma scan_step_bounds (h : list Z) (acc : Z * Z) (i n : Z) :
  0 <= fst acc < 4294967296 -> 0 <= snd acc <= n ->
  0 <= fst (scan_step h acc i) < 4294967296
  /\ 0 <= snd (scan_step h acc i) <= n + 1.
Proof.
  intros Hs Hc. unfold scan_step.
  destruct (0 <? array_get h i); simpl.
  - split; [apply wrap_range | lia].
  - split; lia.
Qed.

Lemma scan_history_bounds (h : list Z) :
  0 <= history_sum h < 4294967296 /\ 0 <= history_validCount h <= 5.
Proof.
  unfold history_sum, history_validCount. rewrite scan_history_unrolled.
  assert (H0 : 0 <= fst (0, 0) < 4294967296 /\ 0 <= snd (0, 0) <= 0)
    by (simpl; lia).
  pose proof (scan_step_bounds h _ 0 _ (proj1 H0) (proj2 H0)) as H1.
  pose proof (scan_step_bounds h _ 1 _ (proj1 H1) (proj2 H1)) as H2.
  pose proof (scan_step_bounds h _ 2 _ (proj1 H2) (proj2 H2)) as H3.
  pose proof (scan_step_bounds h _ 3 _ (proj1 H3) (proj2 H3)) as H4.
  pose proof (scan_step_bounds h _ 4 _ (proj1 H4) (proj2 H4)) as H5.
  exact H5.
Qed.

Lemma clampDebounce_range (d : Z) :
  DEBOUNCE_TIME_US_MIN <= clampDebounce d <= DEBOUNCE_TIME_US_MAX.
Proof.
  unfold clampDebounce, DEBOUNCE_TIME_US_MIN, DEBOUNCE_TIME_US_MAX.
  destruct (d <? 100) eqn:Hlo; [lia |].
  destruct (5000 <? d) eqn:Hhi; lia.
Qed.

(** Within the limits the blend does not wrap: it is the truncated quotient
    of the exact weighted sum. *)
Lemma smooth_exact (cur new : Z) :
  0 <= cur <= 5000 -> 0 <= new <= 5000 ->
  smooth cur new = (cur * 7 + new * 3) / 10.
Proof.
  intros Hc Hn. unfold smooth, U32.div, U32.add, U32.mul.
  rewrite (wrap_small (cur * 7)) by lia.
  rewrite (wrap_small (new * 3)) by lia.
  rewrite wrap_small by lia. reflexivity.
Qed.

Lemma smooth_range (cur new : Z) :
  100 <= cur <= 5000 -> 100 <= new <= 5000 ->
  100 <= smooth cur new <= 5000.
Proof.
  intros Hc Hn. rewrite smooth_exact by lia.
  split.
  - apply Z.div_le_lower_bound; lia.
  - apply Z.div_le_upper_bound; lia.
Qed.

(** [updateAdaptiveDebounce] writes [currentDebounceTime] only. *)
Lemma updateAdaptiveDebounce_frame (s : State) :
  updateAdaptiveDebounce s
  = set_currentDebounceTime (currentDebounceTime (updateAdaptiveDebounce s)) s.
Proof.
  unfold updateAdaptiveDebounce.
  destruct (2 <=? history_validCount (pulseHistory s)); destruct s; reflexivity.
Qed.

(** Replaces the state after [updateAdaptiveDebounce] in the goal by the
    state before it with the new threshold. *)
Ltac expose_update :=
  match goal with
  | |- context [updateAdaptiveDebounce ?m] =>
      rewrite (updateAdaptiveDebounce_frame m)
  end.

(** The new threshold is a function of the history and of the old threshold. *)
Lemma updateAdaptiveDebounce_reads (s s' : State) :
  pulseHistory s = pulseHistory s' ->
  currentDebounceTime s = currentDebounceTime s' ->
  currentDebounceTime (updateAdaptiveDebounce s)
  = currentDebounceTime (updateAdaptiveDebounce s').
Proof.
  intros Hh Hc. unfold updateAdaptiveDebounce. rewrite Hh, Hc.
  destruct (2 <=? history_validCount (pulseHistory s')); simpl; auto.
Qed.

Lemma updateAdaptiveDebounce_inv (s : State) :
  debounce_inv s -> debounce_inv (updateAdaptiveDebounce s).
Proof.
  unfold debounce_inv, updateAdaptiveDebounce,
    DEBOUNCE_TIME_US_MIN, DEBOUNCE_TIME_US_MAX.
  intros [Ht Hi].
  destruct (2 <=? history_validCount (pulseHistory s)); simpl; [| lia].
  split; [| exact Hi].
  apply smooth_range; [exact Ht |].
  apply clampDebounce_range.
Qed.

Lemma clear_history_five (h : list Z) :
  length h = 5%nat -> clear_history h = [0; 0; 0; 0; 0].
Proof.
  intros Hlen.
  destruct h as [|a [|b [|c [|d [|e [|f h]]]]]]; try discriminate Hlen.
  reflexivity.
Qed.

Lemma clear_history_idem (h : list Z) :
  clear_history (clear_history h) = clear_history h.
Proof.
  destruct h as [|a [|b [|c [|d [|e h]]]]]; reflexivity.
Qed.

Lemma array_set_length (h : list Z) (i v : Z) :
  length (array_set h i v) = length h.
Proof.
  unfold array_set. case_bool_decide; [apply length_insert | reflexivity].
Qed.

(** ** The worked example of the specification *)

(** C1 as stated gives 790 for the blended threshold; the sketch computes
    [(1000*7 + 100*3)/10 = 7300/10 = 730]. *)
Lemma recompute_worked_example_not_790 :
  let s := mkState 0 0 0 false 1000 [1000; 1000; 1000; 1000; 1000] 0 in
  newDebounce (pulseHistory s) = 100
  /\ (1000 * 7 + 100 * 3) / 10 = 730
  /\ currentDebounceTime (updateAdaptiveDebounce s) = 730
  /\ currentDebounceTime (updateAdaptiveDebounce s) <> 790.
Proof.
  intros s. subst s.
  repeat match goal with |- _ /\ _ => split end; vm_compute;
    solve [reflexivity | discriminate].
Qed.

(** C1 (amended).  With the history [1000,1000,1000,1000,1000] and a
    threshold of 1000 before the call, [updateAdaptiveDebounce] finds five
    valid samples that sum to 5000, an average of 1000 and a candidate of 83;
    the candidate is raised to [DEBOUNCE_TIME_US_MIN = 100], and the threshold
    after the call is [(1000*7 + 100*3)/10 = 730].  The other variables play
    no part and are left as they were. *)
Theorem recompute_worked_example
    (count last interval index : Z) (pending : bool) :
  let h := [1000; 1000; 1000; 1000; 1000] in
  let s := mkState count last interval pending 1000 h index in
  scan_history h = (5000, 5)
  /\ averageInterval h = 1000
  /\ rawDebounce h = 83
  /\ newDebounce h = DEBOUNCE_TIME_US_MIN
  /\ DEBOUNCE_TIME_US_MIN = 100
  /\ smooth 1000 (newDebounce h) = (1000 * 7 + 100 * 3) / 10
  /\ (1000 * 7 + 100 * 3) / 10 = 730
  /\ updateAdaptiveDebounce s
     = mkState count last interval pending 730 h index.
Proof.
  intros h s. subst h s.
  repeat match goal with |- _ /\ _ => split end; vm_compute; reflexivity.
Qed.

(** ** Division by zero *)

(** C10.  The division [sum / validCount] is only reached with
    [validCount >= 2]: with every division of [updateAdaptiveDebounce]
    checked, the routine still returns a state for every input, the one the
    unchecked embedding computes, and the divisor of the average is never
    zero where it is evaluated. *)
Theorem updateAdaptiveDebounce_never_divides_by_zero (s : State) :
  updateAdaptiveDebounce_checked s = Some (updateAdaptiveDebounce s)
  /\ ((2 <=? history_validCount (pulseHistory s)) = true ->
      U32.udiv_checked (history_sum (pulseHistory s))
                       (history_validCount (pulseHistory s))
      = Some (averageInterval (pulseHistory s))).
Proof.
  assert (Hdiv : (2 <=? history_validCount (pulseHistory s)) = true ->
      U32.udiv_checked (history_sum (pulseHistory s))
                       (history_validCount (pulseHistory s))
      = Some (averageInterval (pulseHistory s))).
  { intros Hguard. apply Z.leb_le in Hguard.
    unfold U32.udiv_checked.
    destruct (history_validCount (pulseHistory s) =? 0) eqn:Hz.
    - apply Z.eqb_eq in Hz. lia.
    - reflexivity. }
  split; [| exact Hdiv].
  unfold updateAdaptiveDebounce_checked, updateAdaptiveDebounce.
  destruct (2 <=? history_validCount (pulseHistory s)) eqn:Hguard;
    [| reflexivity].
  rewrite (Hdiv eq_refl). reflexivity.
Qed.

Lemma updateAdaptiveDebounce_total_witness :
  updateAdaptiveDebounce_checked power_on = Some power_on
  /\ U32.udiv_checked 5000 2 = Some 2500.
Proof.
  split.
  - exact (proj1 (updateAdaptiveDebounce_never_divides_by_zero power_on)).
  - exact (proj2 (updateAdaptiveDebounce_never_divides_by_zero
                    (mkState 0 0 0 false 1000 [2000; 3000; 0; 0; 0] 2))
                 eq_refl).
Defined.

(** ** Reset *)

(** C6.  After either reset routine, from any prior state (the array having
    its five slots): the count, the last timestamp and the last interval are
    0, the pending flag is false, the threshold is
    [DEBOUNCE_TIME_US_DEFAULT], the write index is 0 and every history slot
    is zero. *)
Theorem reset_postcondition (millis : Z) (k : Sketch) :
  five_slots (shared k) ->
  forall s', s' = shared (resetCounter millis k)
             \/ s' = shared (autoResetCounter k) ->
  pulseCount s' = 0
  /\ lastPulseTime s' = 0
  /\ pulseInterval s' = 0
  /\ newPulseReceived s' = false
  /\ currentDebounceTime s' = DEBOUNCE_TIME_US_DEFAULT
  /\ historyIndex s' = 0
  /\ pulseHistory s' = [0; 0; 0; 0; 0]
  /\ Forall (fun x => x = 0) (pulseHistory s').
Proof.
  intros Hfive s' Hs'.
  assert (Hh : pulseHistory s' = [0; 0; 0; 0; 0]).
  { destruct Hs' as [-> | ->]; simpl; apply clear_history_five; exact Hfive. }
  assert (Hrest : pulseCount s' = 0 /\ lastPulseTime s' = 0
                  /\ pulseInterval s' = 0 /\ newPulseReceived s' = false
                  /\ currentDebounceTime s' = DEBOUNCE_TIME_US_DEFAULT
                  /\ historyIndex s' = 0).
  { destruct Hs' as [-> | ->]; simpl; repeat split. }
  destruct Hrest as (H1 & H2 & H3 & H4 & H5 & H6).
  repeat (split; [assumption |]).
  rewrite Hh. repeat constructor.
Qed.

Lemma reset_postcondition_witness :
  let k := mkSketch (mkState 7 9000 3000 true 762 [2000; 3000; 4; 5; 6] 2) 11 in
  five_slots (shared k)
  /\ pulseHistory (shared (resetCounter 30000 k)) = [0; 0; 0; 0; 0]
  /\ currentDebounceTime (shared (autoResetCounter k)) = 1000.
Proof.
  intros k. split; [reflexivity |]. split.
  - exact (proj1 (proj2 (proj2 (proj2 (proj2 (proj2 (proj2
      (reset_postcondition 30000 k eq_refl _ (or_introl eq_refl))))))))).
  - exact (proj1 (proj2 (proj2 (proj2 (proj2
      (reset_postcondition 30000 k eq_refl _ (or_intror eq_refl))))))).
Defined.

(** C9.  Reset is idempotent on the capture and debounce state: a second
    reset, manual or automatic, directly after a first one leaves the seven
    shared variables as the first one left them. *)
Theorem reset_idempotent (m1 m2 : Z) (k : Sketch) :
  shared (resetCounter m2 (resetCounter m1 k)) = shared (resetCounter m1 k)
  /\ shared (autoResetCounter (autoResetCounter k)) = shared (autoResetCounter k)
  /\ shared (autoResetCounter (resetCounter m1 k)) = shared (resetCounter m1 k)
  /\ shared (resetCounter m2 (autoResetCounter k)) = shared (autoResetCounter k).
Proof.
  unfold resetCounter, autoResetCounter; simpl.
  rewrite clear_history_idem. repeat split.
Qed.

(** ** Bounced edges *)

Lemma pulseInterrupt_bounce (t : Z) (s : State) :
  edge_interval t s <= currentDebounceTime s -> pulseInterrupt t s = s.
Proof.
  intros Hle. unfold pulseInterrupt.
  destruct (currentDebounceTime s <? edge_interval t s) eqn:Hlt;
    [apply Z.ltb_lt in Hlt; lia | reflexivity].
Qed.

Lemma updateAdaptiveDebounce_pulseCount (s : State) :
  pulseCount (updateAdaptiveDebounce s) = pulseCount s.
Proof. rewrite updateAdaptiveDebounce_frame. reflexivity. Qed.

Lemma pulseInterrupt_accept_count (t : Z) (s : State) :
  currentDebounceTime s < edge_interval t s ->
  pulseCount (pulseInterrupt t s) = U32.add (pulseCount s) 1.
Proof.
  intros Hlt. unfold pulseInterrupt.
  apply Z.ltb_lt in Hlt. rewrite Hlt. simpl.
  rewrite updateAdaptiveDebounce_pulseCount. reflexivity.
Qed.

(** C4.  An edge whose interval since the previous accepted edge lies in
    [0, currentDebounceTime] leaves every shared variable as it was: the
    count, the last timestamp, the last interval, the pending flag, the
    history, the write index and the threshold. *)
Theorem bounce_leaves_state_unchanged (t : Z) (s : State) :
  0 <= edge_interval t s <= currentDebounceTime s ->
  pulseInterrupt t s = s.
Proof.
  intros [_ Hle]. apply pulseInterrupt_bounce. exact Hle.
Qed.

Lemma bounce_leaves_state_unchanged_witness :
  let s := pulseInterrupt 5000 (pulseInterrupt 2000 power_on) in
  edge_interval 5700 s = 700
  /\ currentDebounceTime s = 762
  /\ pulseInterrupt 5700 s = s.
Proof.
  intros s. split; [reflexivity |]. split; [reflexivity |].
  apply (bounce_leaves_state_unchanged 5700 s).
  vm_compute. split; discriminate.
Defined.

(** C2 as stated exempts an edge that finds [lastPulseTime = 0] from the
    debounce test.  The sketch has no such exemption: after a reset
    ([lastPulseTime = 0], threshold 1000) an edge for which [micros()]
    returns 500 is discarded, and nothing is counted. *)
Lemma zero_timestamp_edge_rejected :
  let k := apply_op (ManualReset 40000) (apply_op (HandleEdge 2000) boot) in
  reachable k
  /\ lastPulseTime (shared k) = 0
  /\ currentDebounceTime (shared k) = 1000
  /\ edge_interval 500 (shared k) = 500
  /\ pulseInterrupt 500 (shared k) = shared k
  /\ pulseCount (pulseInterrupt 500 (shared k)) = 0
  /\ newPulseReceived (pulseInterrupt 500 (shared k)) = false
  /\ ~ (forall (t : Z) (s : State),
          lastPulseTime s = 0 -> pulseInterrupt t s <> s).
Proof.
  intros k. subst k.
  split; [repeat constructor |].
  repeat match goal with |- _ /\ _ => split end; try reflexivity.
  intros Hall. apply (Hall 500 power_on); reflexivity.
Qed.

(** C2 (amended).  [pulseInterrupt] discards an edge (leaves the state as it
    was) exactly when its interval is at most the current threshold, and
    accepts it exactly when the interval is above the threshold.  A zero
    [lastPulseTime] is not treated specially: the interval is then the
    timestamp itself (modulo 2^32) and goes through the same test. *)
Theorem edge_discarded_iff_within_threshold (t : Z) (s : State) :
  (pulseInterrupt t s = s <-> edge_interval t s <= currentDebounceTime s)
  /\ (pulseInterrupt t s <> s <-> currentDebounceTime s < edge_interval t s)
  /\ (lastPulseTime s = 0 -> edge_interval t s = U32.wrap t).
Proof.
  assert (Hacc : currentDebounceTime s < edge_interval t s ->
                 pulseInterrupt t s <> s).
  { intros Hlt Heq.
    pose proof (pulseInterrupt_accept_count t s Hlt) as Hc.
    rewrite Heq in Hc. symmetry in Hc. exact (wrap_succ_neq _ Hc). }
  split; [split | split; [split |]].
  - intros Heq.
    destruct (Z_lt_le_dec (currentDebounceTime s) (edge_interval t s)) as [Hlt | Hle];
      [exfalso; exact (Hacc Hlt Heq) | exact Hle].
  - apply pulseInterrupt_bounce.
  - intros Hne.
    destruct (Z_lt_le_dec (currentDebounceTime s) (edge_interval t s)) as [Hlt | Hle];
      [exact Hlt | exfalso; exact (Hne (pulseInterrupt_bounce t s Hle))].
  - exact Hacc.
  - intros H0. unfold edge_interval, U32.sub. rewrite H0. f_equal. lia.
Qed.

(** ** Too few samples *)

(** For an array of unsigned values, the [validCount] of the loop is the
    number of non-zero entries. *)
Lemma validCount_count_nonzero (h : list Z) :
  length h = 5%nat -> Forall U32.in_range h ->
  history_validCount h = count_nonzero h.
Proof.
  intros Hlen Hall.
  destruct h as [|a [|b [|c [|d [|e [|f h]]]]]]; try discriminate Hlen.
  repeat match goal with
         | H : Forall _ (_ :: _) |- _ =>
             apply Forall_cons in H; destruct H as [[? _] H]
         end.
  unfold count_nonzero, history_validCount.
  rewrite scan_history_unrolled. unfold scan_step, array_get. simpl.
  rewrite !filter_cons, filter_nil.
  repeat match goal with
         | |- context [0 <? ?x] => destruct (Z.ltb_spec 0 x)
         end;
    repeat case_decide; simpl; lia.
Qed.

(** C7.  Whatever the history holds and whatever the threshold was: when
    fewer than two history entries are non-zero, [updateAdaptiveDebounce]
    leaves the threshold (and every other variable) as it was. *)
Theorem recompute_needs_two_samples (s : State) :
  five_slots s -> Forall U32.in_range (pulseHistory s) ->
  count_nonzero (pulseHistory s) < 2 ->
  currentDebounceTime (updateAdaptiveDebounce s) = currentDebounceTime s
  /\ updateAdaptiveDebounce s = s.
Proof.
  intros Hfive Hall Hcount.
  rewrite <- (validCount_count_nonzero _ Hfive Hall) in Hcount.
  assert (Hs : updateAdaptiveDebounce s = s).
  { unfold updateAdaptiveDebounce.
    destruct (2 <=? history_validCount (pulseHistory s)) eqn:Hguard;
      [apply Z.leb_le in Hguard; lia | reflexivity]. }
  rewrite Hs. split; reflexivity.
Qed.

Lemma recompute_needs_two_samples_witness :
  let s := mkState 1 2000 2000 true 1000 [2000; 0; 0; 0; 0] 1 in
  count_nonzero (pulseHistory s) = 1
  /\ currentDebounceTime (updateAdaptiveDebounce s) = 1000.
Proof.
  intros s. split; [reflexivity |].
  refine (proj1 (recompute_needs_two_samples s eq_refl _ _)).
  - repeat constructor; vm_compute; discriminate.
  - vm_compute. reflexivity.
Defined.

(** ** The invariant of the debounce state *)

Lemma pulseInterrupt_inv (t : Z) (s : State) :
  debounce_inv s -> debounce_inv (pulseInterrupt t s).
Proof.
  intros Hinv. unfold pulseInterrupt.
  destruct (currentDebounceTime s <? edge_interval t s); [| exact Hinv].
  cbv zeta.
  match goal with
  | |- debounce_inv (set_newPulseReceived _ (set_pulseCount _ (updateAdaptiveDebounce ?m))) =>
      assert (Hm : debounce_inv m)
  end.
  { destruct Hinv as [Ht Hi]. split; [exact Ht |].
    change (0 <= Z.rem (historyIndex s + 1) 5 < 5).
    apply Z.rem_bound_pos; lia. }
  apply updateAdaptiveDebounce_inv in Hm.
  exact Hm.
Qed.

Lemma reset_inv (millis : Z) (k : Sketch) :
  debounce_inv (shared (resetCounter millis k))
  /\ debounce_inv (shared (autoResetCounter k)).
Proof.
  unfold debounce_inv, DEBOUNCE_TIME_US_MIN, DEBOUNCE_TIME_US_MAX; simpl.
  unfold DEBOUNCE_TIME_US_DEFAULT. lia.
Qed.

Lemma apply_op_inv (o : Op) (k : Sketch) :
  debounce_inv (shared k) -> debounce_inv (shared (apply_op o k)).
Proof.
  intros Hinv. destruct o as [t | | m |]; simpl.
  - apply pulseInterrupt_inv, Hinv.
  - apply updateAdaptiveDebounce_inv, Hinv.
  - apply (reset_inv m k).
  - apply (reset_inv 0 k).
Qed.

(** Every state the sketch can be in after power-on satisfies the
    invariant. *)
Lemma reachable_inv (k : Sketch) : reachable k -> debounce_inv (shared k).
Proof.
  induction 1 as [| o k _ IH].
  - unfold debounce_inv, DEBOUNCE_TIME_US_MIN, DEBOUNCE_TIME_US_MAX; simpl.
    unfold DEBOUNCE_TIME_US_DEFAULT. lia.
  - apply apply_op_inv, IH.
Qed.

(** C3.  Each operation on the debounce state (an edge, a recomputation,
    either reset) preserves the invariant: if the threshold lies within
    [DEBOUNCE_TIME_US_MIN, DEBOUNCE_TIME_US_MAX] and the write index within
    [0,5) before the operation, they do after it; the truncated 70/30 blend
    of two values within the limits stays within the limits. *)
Theorem debounce_inv_preserved (o : Op) (k : Sketch) :
  debounce_inv (shared k) ->
  debounce_inv (shared (apply_op o k))
  /\ DEBOUNCE_TIME_US_MIN
     <= smooth (currentDebounceTime (shared k))
               (newDebounce (pulseHistory (shared k)))
     <= DEBOUNCE_TIME_US_MAX.
Proof.
  intros Hinv. split.
  - apply apply_op_inv, Hinv.
  - destruct Hinv as [Ht _].
    apply smooth_range; [exact Ht | apply clampDebounce_range].
Qed.

Lemma debounce_inv_preserved_witness :
  let k := mkSketch (mkState 4 9000 2000 true 5000 [60000; 60000; 60000; 60000; 0] 4) 0 in
  debounce_inv (shared k)
  /\ debounce_inv (shared (apply_op (HandleEdge 69000) k))
  /\ historyIndex (shared (apply_op (HandleEdge 69000) k)) = 0
  /\ currentDebounceTime (shared (apply_op (HandleEdge 69000) k)) = 5000.
Proof.
  intros k.
  assert (Hk : debounce_inv (shared k)).
  { unfold debounce_inv. vm_compute. repeat split; discriminate. }
  split; [exact Hk |]. split.
  - exact (proj1 (debounce_inv_preserved (HandleEdge 69000) k Hk)).
  - split; reflexivity.
Defined.

(** ** Accepted edges *)

Lemma wrap_add_wrap_l (a b : Z) : U32.wrap (U32.wrap a + b) = U32.wrap (a + b).
Proof.
  unfold U32.wrap. rewrite Z.add_mod_idemp_l; [reflexivity |].
  rewrite modulus_value. discriminate.
Qed.

(** What one accepted edge does to each shared variable. *)
Lemma pulseInterrupt_accept_effect (t : Z) (s : State) :
  0 <= historyIndex s < 5 ->
  currentDebounceTime s < edge_interval t s ->
  let s1 := pulseInterrupt t s in
  let written := <[Z.to_nat (historyIndex s) := edge_interval t s]> (pulseHistory s) in
  pulseCount s1 = U32.add (pulseCount s) 1
  /\ pulseInterval s1 = edge_interval t s
  /\ lastPulseTime s1 = t
  /\ pulseHistory s1 = written
  /\ historyIndex s1 = (historyIndex s + 1) mod 5
  /\ currentDebounceTime s1
     = currentDebounceTime (updateAdaptiveDebounce (set_pulseHistory written s))
  /\ newPulseReceived s1 = true.
Proof.
  intros Hi Hlt s1 written.
  assert (Hcond : (currentDebounceTime s <? edge_interval t s) = true)
    by (apply Z.ltb_lt; exact Hlt).
  assert (Hset : array_set (pulseHistory s) (historyIndex s) (edge_interval t s)
                 = written).
  { unfold array_set. rewrite bool_decide_eq_true_2 by exact Hi. reflexivity. }
  subst s1. unfold pulseInterrupt. rewrite Hcond. cbv zeta.
  match goal with
  | |- context [updateAdaptiveDebounce ?m] =>
      rewrite (updateAdaptiveDebounce_frame m);
      assert (Hthr : currentDebounceTime (updateAdaptiveDebounce m)
                     = currentDebounceTime
                         (updateAdaptiveDebounce (set_pulseHistory written s)))
        by (apply updateAdaptiveDebounce_reads; simpl; [exact Hset | reflexivity]);
      rewrite Hthr
  end.
  simpl. rewrite Hset.
  repeat match goal with |- _ /\ _ => split end; try reflexivity.
  apply Z.rem_mod_nonneg; lia.
Qed.

Lemma pulseInterrupt_five_slots (t : Z) (s : State) :
  five_slots s -> five_slots (pulseInterrupt t s).
Proof.
  unfold five_slots, pulseInterrupt. intros Hlen.
  destruct (currentDebounceTime s <? edge_interval t s); [| exact Hlen].
  cbv zeta.
  expose_update. simpl. rewrite array_set_length. exact Hlen.
Qed.

Lemma pulseInterrupt_index_range (t : Z) (s : State) :
  0 <= historyIndex s < 5 -> 0 <= historyIndex (pulseInterrupt t s) < 5.
Proof.
  intros Hi. unfold pulseInterrupt.
  destruct (currentDebounceTime s <? edge_interval t s); [| exact Hi].
  cbv zeta.
  expose_update. simpl. apply Z.rem_bound_pos; lia.
Qed.

Lemma run_cons (t : Z) (ts : list Z) (s : State) :
  run (t :: ts) s = run ts (pulseInterrupt t s).
Proof. reflexivity. Qed.

Lemma run_index_range (ts : list Z) (s : State) :
  0 <= historyIndex s < 5 -> 0 <= historyIndex (run ts s) < 5.
Proof.
  revert s. induction ts as [| t ts IH]; intros s Hi; [exact Hi |].
  rewrite run_cons. apply IH, pulseInterrupt_index_range, Hi.
Qed.

Lemma run_five_slots (ts : list Z) (s : State) :
  five_slots s -> five_slots (run ts s).
Proof.
  revert s. induction ts as [| t ts IH]; intros s Hs; [exact Hs |].
  rewrite run_cons. apply IH, pulseInterrupt_five_slots, Hs.
Qed.

Lemma all_accepted_app (pre post : list Z) (s : State) :
  all_accepted (pre ++ post) s ->
  all_accepted pre s /\ all_accepted post (run pre s).
Proof.
  revert s. induction pre as [| t pre IH]; intros s Hall.
  - split; [exact I | exact Hall].
  - destruct Hall as [Ht Hrest]. apply IH in Hrest as [Hpre Hpost].
    split; [split; assumption | exact Hpost].
Qed.

Lemma run_accepted_count (ts : list Z) (s : State) :
  all_accepted ts s ->
  U32.wrap (pulseCount (run ts s))
  = U32.wrap (pulseCount s + Z.of_nat (length ts)).
Proof.
  revert s. induction ts as [| t ts IH]; intros s Hall.
  - simpl. f_equal. lia.
  - destruct Hall as [Ht Hrest]. rewrite run_cons, (IH _ Hrest).
    rewrite (pulseInterrupt_accept_count t s Ht).
    unfold U32.add. rewrite wrap_add_wrap_l. f_equal.
    change (length (t :: ts)) with (S (length ts)). lia.
Qed.

Lemma run_count_in_range (ts : list Z) (s : State) :
  U32.in_range (pulseCount s) -> U32.in_range (pulseCount (run ts s)).
Proof.
  revert s. induction ts as [| t ts IH]; intros s Hs; [exact Hs |].
  rewrite run_cons. apply IH.
  unfold pulseInterrupt.
  destruct (currentDebounceTime s <? edge_interval t s); [| exact Hs].
  cbv zeta.
  expose_update. simpl. unfold U32.in_range, U32.add. rewrite modulus_value.
  apply wrap_range.
Qed.

(** Edges 6000 us apart are always accepted, so every value of the 32-bit
    counter is reached from power-on. *)
Lemma every_count_reachable (n : nat) :
  exists k, reachable k
            /\ pulseCount (shared k) = U32.wrap (Z.of_nat n)
            /\ lastPulseTime (shared k) = U32.wrap (6000 * Z.of_nat n).
Proof.
  induction n as [| n (k & Hreach & Hcount & Hlast)].
  - exists boot. split; [constructor |]. split; reflexivity.
  - pose proof (reachable_inv k Hreach) as [Hthr Hidx].
    set (t := U32.wrap (6000 * Z.of_nat (S n))).
    assert (Hint : edge_interval t (shared k) = 6000).
    { unfold edge_interval, U32.sub, t. rewrite Hlast. unfold U32.wrap.
      rewrite <- Zminus_mod.
      replace (6000 * Z.of_nat (S n) - 6000 * Z.of_nat n) with 6000 by lia.
      reflexivity. }
    assert (Hacc : currentDebounceTime (shared k) < edge_interval t (shared k)).
    { rewrite Hint. unfold DEBOUNCE_TIME_US_MAX in Hthr. lia. }
    destruct (pulseInterrupt_accept_effect t (shared k) Hidx Hacc)
      as (Hc & _ & Hl & _).
    exists (apply_op (HandleEdge t) k).
    split; [constructor; exact Hreach |]. simpl. split.
    + rewrite Hc, Hcount. unfold U32.add. rewrite wrap_add_wrap_l.
      f_equal. lia.
    + rewrite Hl. reflexivity.
Qed.

(** C5 as stated has every accepted edge increase the count by exactly 1.
    The count is a 32-bit [unsigned long]: from 4294967295, a value edges
    alone reach from power-on, the next accepted edge takes it to 0. *)
Lemma count_wraps_at_limit :
  let s := mkState 4294967295 0 0 false 1000 [0; 0; 0; 0; 0] 0 in
  currentDebounceTime s < edge_interval 2000 s
  /\ pulseCount (pulseInterrupt 2000 s) = 0
  /\ pulseCount (pulseInterrupt 2000 s) <> pulseCount s + 1
  /\ exists k t,
       reachable k
       /\ currentDebounceTime (shared k) < edge_interval t (shared k)
       /\ pulseCount (shared k) = 4294967295
       /\ pulseCount (pulseInterrupt t (shared k)) = 0.
Proof.
  intros s. subst s.
  split; [reflexivity |]. split; [reflexivity |]. split; [discriminate |].
  destruct (every_count_reachable (Z.to_nat 4294967295))
    as (k & Hreach & Hcount & Hlast).
  rewrite Z2Nat.id in Hcount, Hlast by lia.
  pose proof (reachable_inv k Hreach) as [Hthr Hidx].
  unfold DEBOUNCE_TIME_US_MAX in Hthr.
  assert (Hc : pulseCount (shared k) = 4294967295) by (rewrite Hcount; reflexivity).
  set (t := U32.wrap (lastPulseTime (shared k) + 6000)).
  assert (Hint : edge_interval t (shared k) = 6000).
  { unfold edge_interval, U32.sub, t, U32.wrap.
    rewrite Zminus_mod_idemp_l.
    replace (lastPulseTime (shared k) + 6000 - lastPulseTime (shared k))
      with 6000 by lia.
    reflexivity. }
  assert (Hacc : currentDebounceTime (shared k) < edge_interval t (shared k))
    by (rewrite Hint; lia).
  exists k, t.
  split; [exact Hreach |]. split; [exact Hacc |]. split; [exact Hc |].
  rewrite (pulseInterrupt_accept_count _ _ Hacc), Hc. reflexivity.
Qed.

(** C5 (amended).  In a sequence of edges each of which arrives with an
    interval above the threshold then in effect, every edge increases the
    count by exactly 1 modulo 2^32 (by exactly 1 as long as the count is
    below 4294967295), so the whole sequence adds its length to the count
    modulo 2^32; and every edge sets the last interval to its interval, the
    last timestamp to its timestamp, writes the interval into the history
    slot at the write index, advances the write index modulo 5, recomputes
    the threshold from the history so written, and raises the pending
    flag. *)
Theorem accepted_edges_effect (ts : list Z) (s : State) :
  five_slots s -> 0 <= historyIndex s < 5 -> U32.in_range (pulseCount s) ->
  all_accepted ts s ->
  pulseCount (run ts s) = U32.wrap (pulseCount s + Z.of_nat (length ts))
  /\ (pulseCount s + Z.of_nat (length ts) < U32.modulus ->
      pulseCount (run ts s) = pulseCount s + Z.of_nat (length ts))
  /\ forall pre t post, ts = pre ++ t :: post ->
       let s0 := run pre s in
       let s1 := pulseInterrupt t s0 in
       let interval := edge_interval t s0 in
       let written :=
         <[Z.to_nat (historyIndex s0) := interval]> (pulseHistory s0) in
       pulseCount s1 = U32.wrap (pulseCount s0 + 1)
       /\ (pulseCount s0 < U32.modulus - 1 -> pulseCount s1 = pulseCount s0 + 1)
       /\ pulseInterval s1 = interval
       /\ lastPulseTime s1 = t
       /\ pulseHistory s1 = written
       /\ pulseHistory s1 !! Z.to_nat (historyIndex s0) = Some interval
       /\ historyIndex s1 = (historyIndex s0 + 1) mod 5
       /\ currentDebounceTime s1
          = currentDebounceTime
              (updateAdaptiveDebounce (set_pulseHistory written s0))
       /\ newPulseReceived s1 = true.
Proof.
  intros Hfive Hidx Hcnt Hall.
  assert (Htotal : pulseCount (run ts s)
                   = U32.wrap (pulseCount s + Z.of_nat (length ts))).
  { rewrite <- (run_accepted_count ts s Hall).
    symmetry. apply wrap_small.
    pose proof (run_count_in_range ts s Hcnt) as Hr.
    unfold U32.in_range in Hr. rewrite modulus_value in Hr. exact Hr. }
  split; [exact Htotal |]. split.
  - intros Hfit. rewrite Htotal. apply wrap_small.
    unfold U32.in_range in Hcnt. rewrite modulus_value in Hcnt, Hfit. lia.
  - intros pre t post -> s0 s1 interval written.
    apply all_accepted_app in Hall as [_ [Ht _]]. fold s0 in Ht.
    pose proof (run_index_range pre s Hidx) as Hi0. fold s0 in Hi0.
    pose proof (run_five_slots pre s Hfive) as Hf0. fold s0 in Hf0.
    pose proof (run_count_in_range pre s Hcnt) as Hc0. fold s0 in Hc0.
    destruct (pulseInterrupt_accept_effect t s0 Hi0 Ht)
      as (Hc & Hitv & Hlast & Hhist & Hnext & Hthr & Hflag).
    fold s1 interval written in Hc, Hitv, Hlast, Hhist, Hnext, Hthr, Hflag.
    split; [exact Hc |]. split.
    { intros Hbelow. rewrite Hc. unfold U32.add. apply wrap_small.
      unfold U32.in_range in Hc0. rewrite modulus_value in Hc0, Hbelow. lia. }
    repeat (split; [assumption |]).
    split; [| repeat (split; [assumption |]); assumption].
    rewrite Hhist. unfold written. apply list_lookup_insert_eq.
    unfold five_slots in Hf0. rewrite Hf0. lia.
Qed.

Lemma accepted_edges_effect_witness :
  let ts := [2000; 5000; 9000] in
  all_accepted ts power_on
  /\ pulseCount (run ts power_on) = 3
  /\ pulseInterval (pulseInterrupt 9000 (run [2000; 5000] power_on)) = 4000.
Proof.
  intros ts.
  assert (Hall : all_accepted ts power_on).
  { vm_compute. repeat split; reflexivity. }
  assert (Hidx : 0 <= historyIndex power_on < 5) by (simpl; lia).
  assert (Hcnt : U32.in_range (pulseCount power_on))
    by (vm_compute; split; [discriminate | reflexivity]).
  pose proof (accepted_edges_effect ts power_on eq_refl Hidx Hcnt Hall)
    as (Htotal & _ & Hedge).
  split; [exact Hall |]. split.
  - exact Htotal.
  - exact (proj1 (proj2 (proj2 (Hedge [2000; 5000] 9000 [] eq_refl)))).
Defined.

(** ** Repeated recomputation on a history of identical intervals *)

Section Convergence.

(** The candidate [c] the blend is pulled towards, within the limits. *)
Variable c : Z.
Hypothesis c_range : 100 <= c <= 5000.

Lemma step_exact (T : Z) :
  100 <= T <= 5000 -> blend_step c T = (T * 7 + c * 3) / 10.
Proof. intros HT. unfold blend_step. apply smooth_exact; lia. Qed.


Lemma step_from_above (T : Z) :
  100 <= T <= 5000 -> c <= T -> c <= blend_step c T <= T.
Proof.
  intros HT Hc. rewrite step_exact by exact HT. split.
  - apply Z.div_le_lower_bound; lia.
  - apply Z.div_le_upper_bound; lia.
Qed.

Lemma step_from_below (T : Z) :
  100 <= T <= 5000 -> T <= c -> T <= blend_step c T <= c.
Proof.
  intros HT Hc. rewrite step_exact by exact HT. split.
  - apply Z.div_le_lower_bound; lia.
  - apply Z.div_le_upper_bound; lia.
Qed.








End Convergence.







(** * Further properties of the capture side *)

(** ** Well-formed states *)

Lemma array_set_in_range (h : list Z) (i v : Z) :
  Forall U32.in_range h -> U32.in_range v ->
  Forall U32.in_range (array_set h i v).
Proof.
  intros Hh Hv. unfold array_set.
  case_bool_decide; [apply Forall_insert; assumption | exact Hh].
Qed.

Lemma wrap_in_range (z : Z) : U32.in_range (U32.wrap z).
Proof.
  unfold U32.in_range. rewrite modulus_value. apply wrap_range.
Qed.

Lemma clear_history_unrolled (h : list Z) :
  clear_history h
  = array_set (array_set (array_set (array_set (array_set h 0 0) 1 0) 2 0) 3 0) 4 0.
Proof. reflexivity. Qed.

Lemma clear_history_in_range (h : list Z) :
  Forall U32.in_range h -> Forall U32.in_range (clear_history h).
Proof.
  intros Hh. assert (Hz : U32.in_range 0) by (apply (wrap_in_range 0)).
  rewrite clear_history_unrolled.
  repeat apply array_set_in_range; assumption.
Qed.

Lemma clear_history_length (h : list Z) :
  length (clear_history h) = length h.
Proof.
  rewrite clear_history_unrolled, !array_set_length. reflexivity.
Qed.

Lemma smooth_in_range (cur new : Z) : U32.in_range (smooth cur new).
Proof.
  unfold smooth, U32.div, U32.add, U32.in_range. rewrite modulus_value.
  pose proof (wrap_range (U32.mul cur 7 + U32.mul new 3)) as Hr.
  split.
  - apply Z.div_pos; lia.
  - apply Z.div_lt_upper_bound; lia.
Qed.

Ltac wf_split := split; [| split; [| split; [| split]]].

Lemma updateAdaptiveDebounce_well_formed (s : State) :
  well_formed s -> well_formed (updateAdaptiveDebounce s).
Proof.
  intros (Hf & Hh & Hc & Hi & Ht). unfold updateAdaptiveDebounce.
  destruct (2 <=? history_validCount (pulseHistory s)).
  - wf_split; try assumption. apply smooth_in_range.
  - wf_split; assumption.
Qed.

Lemma pulseInterrupt_well_formed (t : Z) (s : State) :
  well_formed s -> well_formed (pulseInterrupt t s).
Proof.
  intros Hwf. unfold pulseInterrupt.
  destruct (currentDebounceTime s <? edge_interval t s); [| exact Hwf].
  cbv zeta.
  match goal with
  | |- well_formed (set_newPulseReceived _ (set_pulseCount _ (updateAdaptiveDebounce ?m))) =>
      assert (Hm : well_formed m)
  end.
  { destruct Hwf as (Hf & Hh & Hc & Hi & Ht).
    wf_split; try assumption.
    - unfold five_slots. simpl. rewrite array_set_length. exact Hf.
    - simpl. apply array_set_in_range; [exact Hh | apply wrap_in_range].
    - apply wrap_in_range. }
  apply updateAdaptiveDebounce_well_formed in Hm.
  destruct Hm as (Hf & Hh & Hc & Hi & Ht).
  wf_split; try assumption. apply wrap_in_range.
Qed.

Lemma reset_well_formed (millis : Z) (k : Sketch) :
  well_formed (shared k) ->
  well_formed (shared (resetCounter millis k))
  /\ well_formed (shared (autoResetCounter k)).
Proof.
  intros (Hf & Hh & _).
  assert (Hz : U32.in_range 0) by (apply (wrap_in_range 0)).
  assert (Hd : U32.in_range DEBOUNCE_TIME_US_DEFAULT)
    by (apply (wrap_in_range 1000)).
  split; wf_split; simpl; try assumption.
  - unfold five_slots. simpl. rewrite clear_history_length. exact Hf.
  - apply clear_history_in_range, Hh.
  - unfold five_slots. simpl. rewrite clear_history_length. exact Hf.
  - apply clear_history_in_range, Hh.
Qed.

Lemma apply_op_well_formed (o : Op) (k : Sketch) :
  well_formed (shared k) -> well_formed (shared (apply_op o k)).
Proof.
  intros Hwf. destruct o as [t | | m |]; simpl.
  - apply pulseInterrupt_well_formed, Hwf.
  - apply updateAdaptiveDebounce_well_formed, Hwf.
  - apply (reset_well_formed m k Hwf).
  - apply (reset_well_formed 0 k Hwf).
Qed.

Lemma power_on_well_formed : well_formed power_on.
Proof.
  assert (Hz : U32.in_range 0) by (apply (wrap_in_range 0)).
  wf_split; try exact Hz.
  - reflexivity.
  - simpl. repeat (constructor; [exact Hz |]). constructor.
  - apply (wrap_in_range 1000).
Qed.

(** X1.  Every state reachable from power-on, by edges with any timestamps,
    recomputations and resets in any order, is well formed: the history has
    its five slots, each of them, the count, the last interval and the
    threshold lie within 32 bits; and the [validCount] the loop of
    [updateAdaptiveDebounce] finds there is the number of non-zero history
    slots. *)
Theorem reachable_well_formed (k : Sketch) :
  reachable k ->
  well_formed (shared k)
  /\ history_validCount (pulseHistory (shared k))
     = count_nonzero (pulseHistory (shared k)).
Proof.
  intros Hreach.
  assert (Hwf : well_formed (shared k)).
  { induction Hreach as [| o k _ IH].
    - exact power_on_well_formed.
    - apply apply_op_well_formed, IH. }
  split; [exact Hwf |].
  destruct Hwf as (Hf & Hh & _).
  apply validCount_count_nonzero; assumption.
Qed.

Lemma reachable_well_formed_witness :
  let k := apply_op (HandleEdge 5000) (apply_op (HandleEdge 2000) boot) in
  history_validCount (pulseHistory (shared k)) = 2
  /\ count_nonzero (pulseHistory (shared k)) = 2.
Proof.
  intros k.
  assert (Hreach : reachable k) by (repeat constructor).
  pose proof (proj2 (reachable_well_formed k Hreach)) as Heq.
  split; [reflexivity |]. rewrite <- Heq. reflexivity.
Defined.

(** ** The first edge after a reset *)

Lemma reset_gives_power_on (millis : Z) (k : Sketch) :
  five_slots (shared k) ->
  shared (resetCounter millis k) = power_on
  /\ shared (autoResetCounter k) = power_on.
Proof.
  intros Hfive. unfold resetCounter, autoResetCounter; simpl.
  rewrite (clear_history_five _ Hfive). split; reflexivity.
Qed.

Lemma first_edge_from_power_on (t : Z) :
  DEBOUNCE_TIME_US_DEFAULT < U32.wrap t ->
  pulseInterrupt t power_on
  = mkState 1 t (U32.wrap t) true DEBOUNCE_TIME_US_DEFAULT
            [U32.wrap t; 0; 0; 0; 0] 1.
Proof.
  intros Hlate.
  assert (Hint : edge_interval t power_on = U32.wrap t).
  { unfold edge_interval, U32.sub. simpl. f_equal. lia. }
  unfold DEBOUNCE_TIME_US_DEFAULT in Hlate.
  assert (Hpos : (0 <? U32.wrap t) = true) by (apply Z.ltb_lt; lia).
  unfold pulseInterrupt. rewrite Hint.
  replace (currentDebounceTime power_on <? U32.wrap t) with true
    by (symmetry; apply Z.ltb_lt; exact Hlate).
  cbv zeta. unfold updateAdaptiveDebounce. simpl pulseHistory.
  replace (history_validCount
             (array_set [0; 0; 0; 0; 0] 0 (U32.wrap t))) with 1.
  - reflexivity.
  - unfold history_validCount. rewrite scan_history_unrolled.
    unfold scan_step, array_get. simpl. rewrite Hpos. reflexivity.
Qed.

(** X3.  After either reset, the first edge is measured from time zero: if
    the timestamp [micros()] returned is above the default threshold
    (modulo 2^32), the edge is accepted, the interval recorded for it, in
    [pulseInterval] and in slot 0 of the history, is the timestamp itself
    and not a spacing between two pulses, the count is 1, and the threshold
    stays at its default because one sample is not enough to recompute
    it. *)
Theorem first_edge_after_reset (millis t : Z) (k : Sketch) :
  five_slots (shared k) ->
  DEBOUNCE_TIME_US_DEFAULT < U32.wrap t ->
  pulseInterrupt t (shared (resetCounter millis k))
  = mkState 1 t (U32.wrap t) true DEBOUNCE_TIME_US_DEFAULT
            [U32.wrap t; 0; 0; 0; 0] 1
  /\ pulseInterrupt t (shared (autoResetCounter k))
     = mkState 1 t (U32.wrap t) true DEBOUNCE_TIME_US_DEFAULT
               [U32.wrap t; 0; 0; 0; 0] 1.
Proof.
  intros Hfive Hlate.
  destruct (reset_gives_power_on millis k Hfive) as [-> ->].
  split; apply first_edge_from_power_on; exact Hlate.
Qed.

Lemma first_edge_after_reset_witness :
  let k := mkSketch (mkState 7 9000 3000 true 762 [2000; 3000; 4; 5; 6] 2) 11 in
  pulseInterrupt 3000000000 (shared (resetCounter 30000 k))
  = mkState 1 3000000000 3000000000 true 1000 [3000000000; 0; 0; 0; 0] 1.
Proof.
  intros k.
  exact (proj1 (first_edge_after_reset 30000 3000000000 k eq_refl eq_refl)).
Defined.

(** ** The recomputed threshold *)

(** X4.  With the threshold within its limits, [updateAdaptiveDebounce]
    never overshoots: the new threshold lies between the old threshold and
    the clamped candidate derived from the history (both included), for
    every history. *)
Theorem recompute_never_overshoots (s : State) :
  DEBOUNCE_TIME_US_MIN <= currentDebounceTime s <= DEBOUNCE_TIME_US_MAX ->
  let old := currentDebounceTime s in
  let candidate := newDebounce (pulseHistory s) in
  let new := currentDebounceTime (updateAdaptiveDebounce s) in
  Z.min old candidate <= new <= Z.max old candidate.
Proof.
  intros Hthr old candidate new.
  assert (Hc : 100 <= candidate <= 5000) by (apply clampDebounce_range).
  unfold DEBOUNCE_TIME_US_MIN, DEBOUNCE_TIME_US_MAX in Hthr.
  fold old in Hthr.
  subst new. unfold updateAdaptiveDebounce.
  destruct (2 <=? history_validCount (pulseHistory s)); simpl.
  - fold old candidate. change (smooth old candidate) with (blend_step candidate old).
    destruct (Z_le_gt_dec candidate old) as [Hle | Hgt].
    + pose proof (step_from_above candidate Hc old Hthr Hle). lia.
    + pose proof (step_from_below candidate Hc old Hthr ltac:(lia)). lia.
  - fold old. lia.
Qed.

Lemma recompute_never_overshoots_witness :
  let s := mkState 2 5000 3000 true 1000 [2000; 3000; 0; 0; 0] 2 in
  newDebounce (pulseHistory s) = 208
  /\ 208 <= currentDebounceTime (updateAdaptiveDebounce s) <= 1000.
Proof.
  intros s. split; [reflexivity |].
  apply (recompute_never_overshoots s).
  vm_compute. split; discriminate.
Defined.

(** ** The average of the history *)

Lemma add_wrap_l (a b : Z) : U32.add (U32.wrap a) b = U32.wrap (a + b).
Proof. unfold U32.add. apply wrap_add_wrap_l. Qed.

Lemma scan_step_sum (h : list Z) (acc : Z * Z) (i total : Z) :
  0 <= array_get h i ->
  fst acc = U32.wrap total ->
  fst (scan_step h acc i) = U32.wrap (total + array_get h i).
Proof.
  intros Hx Hacc. unfold scan_step.
  destruct (Z.ltb_spec 0 (array_get h i)) as [Hpos | Hzero]; simpl.
  - rewrite Hacc. apply add_wrap_l.
  - rewrite Hacc. f_equal. lia.
Qed.

(** The sum the loop accumulates is the exact sum of the five slots modulo
    2^32. *)
Lemma history_sum_wrap (h : list Z) :
  length h = 5%nat -> Forall U32.in_range h ->
  history_sum h = U32.wrap (exact_sum h).
Proof.
  intros Hlen Hall.
  destruct h as [|a [|b [|c [|d [|e [|f h]]]]]]; try discriminate Hlen.
  repeat match goal with
         | H : Forall _ (_ :: _) |- _ =>
             apply Forall_cons in H; destruct H as [[? _] H]
         end.
  unfold history_sum. rewrite scan_history_unrolled.
  assert (S0 : fst ((0, 0) : Z * Z) = U32.wrap 0) by reflexivity.
  pose proof (scan_step_sum [a; b; c; d; e] _ 0 _ ltac:(assumption) S0) as S1.
  pose proof (scan_step_sum [a; b; c; d; e] _ 1 _ ltac:(assumption) S1) as S2.
  pose proof (scan_step_sum [a; b; c; d; e] _ 2 _ ltac:(assumption) S2) as S3.
  pose proof (scan_step_sum [a; b; c; d; e] _ 3 _ ltac:(assumption) S3) as S4.
  pose proof (scan_step_sum [a; b; c; d; e] _ 4 _ ltac:(assumption) S4) as S5.
  rewrite S5. f_equal. unfold array_get, exact_sum. simpl. lia.
Qed.

(** X5.  For a history of five 32-bit slots, the sum [updateAdaptiveDebounce]
    accumulates is the exact sum of the slots modulo 2^32 (unset slots add
    nothing).  So when the exact sum fits in 32 bits, the average it divides
    out is the true mean of the non-zero slots, rounded down; the candidate
    follows as a twelfth of it. *)
Theorem average_is_truncated_mean (h : list Z) :
  length h = 5%nat -> Forall U32.in_range h ->
  history_sum h = U32.wrap (exact_sum h)
  /\ (exact_sum h < U32.modulus ->
      averageInterval h = exact_sum h / count_nonzero h
      /\ rawDebounce h = exact_sum h / count_nonzero h / 12).
Proof.
  intros Hlen Hall.
  pose proof (history_sum_wrap h Hlen Hall) as Hsum.
  split; [exact Hsum |].
  intros Hfit. rewrite modulus_value in Hfit.
  assert (Hnonneg : 0 <= exact_sum h).
  { clear Hlen Hsum Hfit. induction Hall as [| x l [Hx _] _ IH]; simpl; lia. }
  assert (Havg : averageInterval h = exact_sum h / count_nonzero h).
  { unfold averageInterval, U32.div.
    rewrite Hsum, (validCount_count_nonzero h Hlen Hall).
    rewrite wrap_small by lia. reflexivity. }
  split; [exact Havg |].
  unfold rawDebounce, U32.div. rewrite Havg. reflexivity.
Qed.

Lemma average_is_truncated_mean_witness :
  averageInterval [2000; 3001; 0; 0; 0] = 5001 / 2
  /\ rawDebounce [2000; 3001; 0; 0; 0] = 5001 / 2 / 12.
Proof.
  refine (proj2 (average_is_truncated_mean [2000; 3001; 0; 0; 0] eq_refl _) eq_refl).
  repeat (constructor; [vm_compute; split; [discriminate | reflexivity] |]).
  constructor.
Defined.

(** ** The history as a ring *)

Lemma accept_step (t : Z) (s : State) (h : list Z) (i last : Z) :
  pulseHistory s = h -> historyIndex s = i -> lastPulseTime s = last ->
  0 <= i < 5 ->
  currentDebounceTime s < edge_interval t s ->
  pulseHistory (pulseInterrupt t s) = <[Z.to_nat i := U32.sub t last]> h
  /\ historyIndex (pulseInterrupt t s) = (i + 1) mod 5
  /\ lastPulseTime (pulseInterrupt t s) = t.
Proof.
  intros <- <- <- Hi Hacc.
  destruct (pulseInterrupt_accept_effect t s Hi Hacc)
    as (_ & _ & Hl & Hh & Hn & _).
  repeat split; assumption.
Qed.

(** Computes the closed right-hand side of an equation on the write index. *)
Ltac norm_index H :=
  match type of H with
  | _ = ?rhs => let v := eval vm_compute in rhs in change rhs with v in H
  end.

(** X6.  Five accepted edges in a row overwrite the whole history: the
    interval of the j-th of them sits in slot [(historyIndex + j) mod 5],
    nothing older is left, and the write index is back where it started. *)
Theorem five_edges_fill_history (ts : list Z) (s : State) :
  length ts = 5%nat ->
  five_slots s -> 0 <= historyIndex s < 5 ->
  all_accepted ts s ->
  historyIndex (run ts s) = historyIndex s
  /\ forall j : nat, (j < 5)%nat ->
       pulseHistory (run ts s)
         !! Z.to_nat ((historyIndex s + Z.of_nat j) mod 5)
       = arrival_intervals (lastPulseTime s) ts !! j.
Proof.
  intros Hlen Hfive Hidx Hall.
  destruct ts as [|t1 [|t2 [|t3 [|t4 [|t5 [|t6 ts]]]]]]; try discriminate Hlen.
  destruct Hall as (A1 & A2 & A3 & A4 & A5 & _).
  unfold five_slots in Hfive.
  destruct (pulseHistory s) as [|a [|b [|c [|d [|e [|f h]]]]]] eqn:Hh;
    try discriminate Hfive.
  remember (historyIndex s) as i eqn:Hi.
  remember (lastPulseTime s) as last eqn:Hl.
  symmetry in Hi, Hl.
  assert (Hcase : i = 0 \/ i = 1 \/ i = 2 \/ i = 3 \/ i = 4) by lia.
  repeat rewrite run_cons. change (run [] ?x) with x.
  destruct Hcase as [-> | [-> | [-> | [-> | ->]]]].
  all: destruct (accept_step t1 _ _ _ _ Hh Hi Hl ltac:(lia) A1) as (H1 & I1 & L1);
    norm_index I1.
  all: destruct (accept_step t2 _ _ _ _ H1 I1 L1 ltac:(lia) A2) as (H2 & I2 & L2);
    norm_index I2.
  all: destruct (accept_step t3 _ _ _ _ H2 I2 L2 ltac:(lia) A3) as (H3 & I3 & L3);
    norm_index I3.
  all: destruct (accept_step t4 _ _ _ _ H3 I3 L3 ltac:(lia) A4) as (H4 & I4 & L4);
    norm_index I4.
  all: destruct (accept_step t5 _ _ _ _ H4 I4 L4 ltac:(lia) A5) as (H5 & I5 & L5);
    norm_index I5.
  all: split; [exact I5 |].
  all: intros j Hj; rewrite H5;
    destruct j as [|[|[|[|[|j]]]]]; try lia; reflexivity.
Qed.

Lemma five_edges_fill_history_witness :
  let ts := [2000; 5000; 9000; 14000; 20000] in
  pulseHistory (run ts power_on) !! 0%nat = Some 2000
  /\ pulseHistory (run ts power_on) !! 4%nat = Some 6000
  /\ historyIndex (run ts power_on) = 0.
Proof.
  intros ts.
  assert (Hall : all_accepted ts power_on).
  { vm_compute. repeat split; reflexivity. }
  assert (Hidx : 0 <= historyIndex power_on < 5) by (simpl; lia).
  pose proof (five_edges_fill_history ts power_on eq_refl eq_refl Hidx Hall)
    as [Hback Hslots].
  split; [exact (Hslots 0%nat ltac:(lia)) |].
  split; [exact (Hslots 4%nat ltac:(lia)) | exact Hback].
Defined.

(** * The formatting helpers *)

Lemma padStart_loop_shape (rounds : nat) (str : list ascii)
    (targetLength : Z) (padChar : ascii) :
  (Z.to_nat (U32.wrap targetLength - Z.of_nat (length str)) <= rounds)%nat ->
  padStart_loop rounds str targetLength padChar
  = replicate (Z.to_nat (U32.wrap targetLength - Z.of_nat (length str))) padChar
    ++ str.
Proof.
  revert str. induction rounds as [| rounds IH]; intros str Hrounds.
  - replace (Z.to_nat (U32.wrap targetLength - Z.of_nat (length str)))
      with 0%nat by lia.
    reflexivity.
  - simpl.
    destruct (Z.ltb_spec (Z.of_nat (length str)) (U32.wrap targetLength))
      as [Hshort | Hlong].
    + rewrite IH by (simpl length; lia).
      simpl length.
      replace (Z.to_nat (U32.wrap targetLength - Z.of_nat (length str)))
        with (S (Z.to_nat (U32.wrap targetLength - Z.of_nat (S (length str)))))
        by lia.
      rewrite replicate_S_end, <- app_assoc. reflexivity.
    + replace (Z.to_nat (U32.wrap targetLength - Z.of_nat (length str)))
        with 0%nat by lia.
      reflexivity.
Qed.

(** The [while] loop of [padStart] has stopped by itself when the rounds
    are used up: its test is false on the result. *)
Lemma padStart_loop_done (str : list ascii) (targetLength : Z) (padChar : ascii) :
  ~ (Z.of_nat (length (padStart str targetLength padChar))
     < U32.wrap targetLength).
Proof.
  unfold padStart.
  pose proof (wrap_range targetLength) as Hw.
  rewrite padStart_loop_shape by lia.
  rewrite length_app, length_replicate. lia.
Qed.

(** X7.  For a non-negative [int] width, [padStart] puts exactly as many
    pad characters in front of the string as it takes to reach the width:
    the result has the larger of the two lengths, ends with the string it
    was given, and is that string itself when it is already as long as the
    width asks; [padStart] never truncates, and its [while] loop has
    stopped by its own test.  [formatNumber] is this with spaces in front
    of the printed number. *)
Theorem padStart_pads_to_width (String_ul : Z -> list ascii)
    (str : list ascii) (number targetLength : Z) (padChar : ascii) :
  0 <= targetLength <= 2147483647 ->
  padStart str targetLength padChar
  = replicate (Z.to_nat (targetLength - Z.of_nat (length str))) padChar ++ str
  /\ Z.of_nat (length (padStart str targetLength padChar))
     = Z.max targetLength (Z.of_nat (length str))
  /\ (targetLength <= Z.of_nat (length str) ->
      padStart str targetLength padChar = str)
  /\ ~ (Z.of_nat (length (padStart str targetLength padChar))
        < U32.wrap targetLength)
  /\ formatNumber String_ul number targetLength
     = replicate
         (Z.to_nat (targetLength - Z.of_nat (length (String_ul number))))
         " "%char
       ++ String_ul number.
Proof.
  intros Hwidth.
  assert (Hw : U32.wrap targetLength = targetLength)
    by (apply wrap_small; lia).
  assert (Hshape : forall s c,
    padStart s targetLength c
    = replicate (Z.to_nat (targetLength - Z.of_nat (length s))) c ++ s).
  { intros s c. unfold padStart.
    rewrite padStart_loop_shape by lia. rewrite Hw. reflexivity. }
  split; [apply Hshape |]. split; [| split; [| split]].
  - rewrite Hshape, length_app, length_replicate. lia.
  - intros Hlong. rewrite Hshape.
    replace (Z.to_nat (targetLength - Z.of_nat (length str))) with 0%nat by lia.
    reflexivity.
  - apply padStart_loop_done.
  - unfold formatNumber. apply Hshape.
Qed.

Lemma padStart_pads_to_width_witness :
  formatNumber decimal 42 6 = [" "; " "; " "; " "; "4"; "2"]%char
  /\ padStart (decimal 1234567) 6 " "%char = decimal 1234567.
Proof.
  split.
  - exact (proj2 (proj2 (proj2 (proj2
      (padStart_pads_to_width decimal [] 42 6 " "%char
         ltac:(split; discriminate)))))).
  - apply (proj1 (proj2 (proj2
      (padStart_pads_to_width decimal (decimal 1234567) 0 6 " "%char
         ltac:(split; discriminate))))).
    vm_compute. discriminate.
Defined.

(** * The periodic report *)

Lemma spaces_loop_length (acc : list ascii) (l : list Z) :
  length (foldl (fun spaces _ => spaces ++ [" "%char]) acc l)
  = (length acc + length l)%nat.
Proof.
  revert acc. induction l as [| x l IH]; intros acc; simpl.
  - lia.
  - rewrite IH, length_app. simpl. lia.
Qed.

(** X8.  The time field of the periodic report is not of one width.  When
    the minutes are printed ([elapsedMinutes > 0]) the text and the padding
    spaces together take 28 characters; during the first minute, when they
    are not printed, the padding still counts the digit of the minutes and
    the field takes 27, so the closing bar stands one column to the left.
    (The printed numbers have at most ten digits each, and zero one.) *)
Theorem report_time_field_width (String_ul : Z -> list ascii)
    (elapsedMinutes remainingSeconds : Z) :
  (1 <= length (String_ul elapsedMinutes) <= 10)%nat ->
  (1 <= length (String_ul remainingSeconds) <= 10)%nat ->
  length (String_ul 0) = 1%nat ->
  0 <= elapsedMinutes ->
  length (report_time_field String_ul elapsedMinutes remainingSeconds)
  = if 0 <? elapsedMinutes then 28%nat else 27%nat.
Proof.
  intros Hm Hs Hzero Hnonneg. unfold report_time_field.
  rewrite !length_app, spaces_loop_length, length_seqZ. simpl length.
  destruct (Z.ltb_spec 0 elapsedMinutes) as [Hpos | Hnull].
  - rewrite length_app. simpl length. lia.
  - assert (elapsedMinutes = 0) as -> by lia.
    rewrite Hzero. simpl length. lia.
Qed.

Lemma report_time_field_width_witness :
  length (report_time_field decimal 0 59) = 27%nat
  /\ length (report_time_field decimal 1 0) = 28%nat.
Proof.
  split.
  - apply (report_time_field_width decimal 0 59); vm_compute;
      try split; try reflexivity; try discriminate; lia.
  - apply (report_time_field_width decimal 1 0); vm_compute;
      try split; try reflexivity; try discriminate; lia.
Defined.

(** * The reset button *)

Lemma checkButtonPress_pressed (millis : Z) (level : bool) (reset_millis : Z)
    (b : Board) :
  press_registered millis level b = true ->
  checkButtonPress millis level reset_millis b
  = (mkBoard (resetCounter reset_millis (sketch b)) (lastDisplayTime b)
             LOW millis (lastPulseCount b),
     [ManualResetBanner]).
Proof.
  unfold press_registered, checkButtonPress. intros Hpress.
  apply andb_true_iff in Hpress as [Hlevels Hlate].
  apply andb_true_iff in Hlevels as [Hlow Hhigh].
  apply eqb_prop in Hlow, Hhigh. subst level.
  destruct b as [k display state time count]. simpl in *. subst state.
  rewrite Hlate. reflexivity.
Qed.

Lemma checkButtonPress_not_pressed (millis : Z) (level : bool)
    (reset_millis : Z) (b : Board) :
  press_registered millis level b = false ->
  snd (checkButtonPress millis level reset_millis b) = []
  /\ sketch (fst (checkButtonPress millis level reset_millis b)) = sketch b
  /\ lastDisplayTime (fst (checkButtonPress millis level reset_millis b))
     = lastDisplayTime b
  /\ lastPulseCount (fst (checkButtonPress millis level reset_millis b))
     = lastPulseCount b.
Proof.
  unfold press_registered, checkButtonPress, LOW, HIGH. intros Hpress.
  destruct level, (lastButtonState b),
    (BUTTON_DEBOUNCE_MS <? U32.sub millis (lastButtonTime b));
    try discriminate Hpress; simpl; repeat split.
Qed.

Lemma checkButtonPress_same_level (millis : Z) (reset_millis : Z) (b : Board) :
  checkButtonPress millis (lastButtonState b) reset_millis b = (b, []).
Proof.
  unfold checkButtonPress. rewrite eqb_reflx. reflexivity.
Qed.

(** X9.  [checkButtonPress] resets the counter exactly when the pin reads
    LOW, the last registered level is HIGH and more than 50 ms (modulo 2^32)
    have passed since the last registered change.  Then the manual reset
    runs once and the press is registered with its time.  In every other
    case (a release, a change within the 50 ms, no change) nothing is
    printed and the capture state, the reset timer and the report
    bookkeeping are left as they were. *)
Theorem button_resets_on_debounced_press (millis : Z) (level : bool)
    (reset_millis : Z) (b : Board) :
  let result := checkButtonPress millis level reset_millis b in
  let pressed :=
    eqb level LOW && eqb (lastButtonState b) HIGH
    && (BUTTON_DEBOUNCE_MS <? U32.sub millis (lastButtonTime b)) in
  if pressed
  then result
       = (mkBoard (resetCounter reset_millis (sketch b)) (lastDisplayTime b)
                  LOW millis (lastPulseCount b),
          [ManualResetBanner])
  else snd result = []
       /\ sketch (fst result) = sketch b
       /\ lastDisplayTime (fst result) = lastDisplayTime b
       /\ lastPulseCount (fst result) = lastPulseCount b.
Proof.
  intros result pressed. subst result.
  change pressed with (press_registered millis level b).
  destruct (press_registered millis level b) eqn:Hpress.
  - apply checkButtonPress_pressed, Hpress.
  - apply checkButtonPress_not_pressed, Hpress.
Qed.

Lemma poll_button_held (polls : list (Z * bool * Z)) (b : Board) :
  Forall (fun p => snd (fst p) = lastButtonState b) polls ->
  poll_button polls b = (b, []).
Proof.
  induction 1 as [| [[millis level] reset_millis] polls Hlevel _ IH];
    [reflexivity |].
  simpl in Hlevel. subst level. simpl.
  rewrite checkButtonPress_same_level, IH. reflexivity.
Qed.

(** X10.  One press gives one reset: once a press is registered, the polls
    that follow while the pin still reads LOW, however many and whenever
    they come, print nothing and change nothing, so holding the button
    down does not reset again. *)
Theorem held_button_resets_once (millis reset_millis : Z)
    (polls : list (Z * bool * Z)) (b : Board) :
  press_registered millis LOW b = true ->
  Forall (fun p => snd (fst p) = LOW) polls ->
  poll_button ((millis, LOW, reset_millis) :: polls) b
  = (mkBoard (resetCounter reset_millis (sketch b)) (lastDisplayTime b)
             LOW millis (lastPulseCount b),
     [ManualResetBanner]).
Proof.
  intros Hpress Hheld. simpl.
  rewrite (checkButtonPress_pressed _ _ _ _ Hpress).
  rewrite poll_button_held by exact Hheld. reflexivity.
Qed.

Lemma held_button_resets_once_witness :
  let b := edge 5000 (edge 2000 board_on) in
  snd (poll_button [(400, LOW, 400); (410, LOW, 0); (900, LOW, 0)] b)
  = [ManualResetBanner]
  /\ pulseCount (shared (sketch b)) = 2
  /\ pulseCount (shared (sketch (fst
       (poll_button [(400, LOW, 400); (410, LOW, 0); (900, LOW, 0)] b)))) = 0.
Proof.
  intros b.
  assert (Hheld : Forall (fun p : Z * bool * Z => snd (fst p) = LOW)
                    [(410, LOW, 0); (900, LOW, 0)])
    by (repeat constructor).
  pose proof (held_button_resets_once 400 400 _ b eq_refl Hheld) as Heq.
  split; [rewrite Heq; reflexivity |]. split; [reflexivity |].
  rewrite Heq. reflexivity.
Defined.

(** * One iteration of the loop *)

(** The three stages after the button, by their conditions. *)
Lemma loop_auto_reset_spec (r : Readings) (b : Board) :
  loop_auto_reset r b
  = if AUTO_RESET_INTERVAL
       <=? U32.sub (loop_millis r) (lastResetTime (sketch b))
    then (set_sketch (autoResetCounter
                        (mkSketch (shared (sketch b)) (loop_millis r))) b,
          [AutoResetBanner
             (pulseCount (shared (sketch b)))
             (U32.sub (auto_millis r)
                      (U32.sub (loop_millis r) AUTO_RESET_INTERVAL))])
    else (b, []).
Proof. reflexivity. Qed.

Lemma loop_stages (r : Readings) (b : Board) :
  loop r b
  = let c := checkButtonPress (button_millis r) (button_level r)
                              (manual_millis r) b in
    let a := loop_auto_reset r (fst c) in
    let n := loop_new_pulse r (fst a) in
    let p := loop_report r (fst n) in
    (fst p, snd c ++ snd a ++ snd n ++ snd p).
Proof.
  unfold loop. cbv zeta.
  destruct (checkButtonPress _ _ _ b) as [b1 out1]. cbn [fst snd].
  destruct (loop_auto_reset r b1) as [b2 out2]. cbn [fst snd].
  destruct (loop_new_pulse r b2) as [b3 out3]. cbn [fst snd].
  destruct (loop_report r b3) as [b4 out4]. reflexivity.
Qed.

Lemma loop_report_trace (r : Readings) (b : Board) :
  existsb is_pulse_line (snd (loop_report r b)) = false
  /\ existsb is_reset_banner (snd (loop_report r b)) = false
  /\ existsb is_auto_banner (snd (loop_report r b)) = false
  /\ sketch (fst (loop_report r b)) = sketch b.
Proof.
  unfold loop_report.
  destruct (DISPLAY_INTERVAL <=? U32.sub (loop_millis r) (lastDisplayTime b));
    repeat split.
Qed.

Lemma loop_new_pulse_trace (r : Readings) (b : Board) :
  existsb is_pulse_line (snd (loop_new_pulse r b))
  = newPulseReceived (shared (sketch b))
  /\ existsb is_reset_banner (snd (loop_new_pulse r b)) = false
  /\ existsb is_auto_banner (snd (loop_new_pulse r b)) = false
  /\ newPulseReceived (shared (sketch (fst (loop_new_pulse r b)))) = false
  /\ pulseCount (shared (sketch (fst (loop_new_pulse r b))))
     = pulseCount (shared (sketch b))
  /\ lastResetTime (sketch (fst (loop_new_pulse r b)))
     = lastResetTime (sketch b)
  /\ lastDisplayTime (fst (loop_new_pulse r b)) = lastDisplayTime b
  /\ lastPulseCount (fst (loop_new_pulse r b)) = lastPulseCount b.
Proof.
  unfold loop_new_pulse.
  destruct (newPulseReceived (shared (sketch b))) eqn:Hflag;
    simpl; rewrite ?Hflag; repeat split.
Qed.

Lemma loop_auto_reset_trace (r : Readings) (b : Board) :
  existsb is_pulse_line (snd (loop_auto_reset r b)) = false
  /\ existsb is_manual_banner (snd (loop_auto_reset r b)) = false
  /\ existsb is_auto_banner (snd (loop_auto_reset r b))
     = (AUTO_RESET_INTERVAL
        <=? U32.sub (loop_millis r) (lastResetTime (sketch b)))
  /\ newPulseReceived (shared (sketch (fst (loop_auto_reset r b))))
     = newPulseReceived (shared (sketch b))
       && negb (existsb is_auto_banner (snd (loop_auto_reset r b)))
  /\ lastDisplayTime (fst (loop_auto_reset r b)) = lastDisplayTime b
  /\ lastPulseCount (fst (loop_auto_reset r b)) = lastPulseCount b.
Proof.
  rewrite loop_auto_reset_spec.
  destruct (AUTO_RESET_INTERVAL
            <=? U32.sub (loop_millis r) (lastResetTime (sketch b)));
    simpl; rewrite ?andb_true_r, ?andb_false_r; repeat split.
Qed.

Lemma checkButtonPress_trace (millis : Z) (level : bool) (reset_millis : Z)
    (b : Board) :
  let c := checkButtonPress millis level reset_millis b in
  existsb is_pulse_line (snd c) = false
  /\ existsb is_auto_banner (snd c) = false
  /\ existsb is_manual_banner (snd c) = press_registered millis level b
  /\ newPulseReceived (shared (sketch (fst c)))
     = newPulseReceived (shared (sketch b))
       && negb (press_registered millis level b)
  /\ lastDisplayTime (fst c) = lastDisplayTime b
  /\ lastPulseCount (fst c) = lastPulseCount b.
Proof.
  intros c. subst c.
  destruct (press_registered millis level b) eqn:Hpress.
  - rewrite (checkButtonPress_pressed _ _ _ _ Hpress). simpl.
    rewrite andb_false_r. repeat split.
  - destruct (checkButtonPress_not_pressed millis level reset_millis b Hpress)
      as (Hout & Hsketch & Hdisplay & Hcount).
    rewrite Hout, Hsketch, Hdisplay, Hcount. simpl.
    rewrite andb_true_r. repeat split.
Qed.

Lemma existsb_reset_banner (out : list Printed) :
  existsb is_reset_banner out
  = existsb is_manual_banner out || existsb is_auto_banner out.
Proof.
  induction out as [| p out IH]; [reflexivity |].
  simpl. rewrite IH. unfold is_reset_banner.
  destruct (is_manual_banner p), (is_auto_banner p),
    (existsb is_manual_banner out), (existsb is_auto_banner out); reflexivity.
Qed.

(** X11.  An iteration of [loop] always leaves the pending flag cleared.
    It prints the line of the new pulse exactly when the flag was set on
    entry and no reset, manual or automatic, ran earlier in the same
    iteration: a reset clears the flag first, and the pulse that raised it
    is then never reported. *)
Theorem loop_consumes_pending (r : Readings) (b : Board) :
  newPulseReceived (shared (sketch (fst (loop r b)))) = false
  /\ existsb is_pulse_line (snd (loop r b))
     = newPulseReceived (shared (sketch b))
       && negb (existsb is_reset_banner (snd (loop r b))).
Proof.
  rewrite loop_stages. cbv zeta. simpl fst. simpl snd.
  set (c := checkButtonPress _ _ _ b).
  set (a := loop_auto_reset r (fst c)).
  set (n := loop_new_pulse r (fst a)).
  set (p := loop_report r (fst n)).
  destruct (checkButtonPress_trace (button_millis r) (button_level r)
              (manual_millis r) b) as (Cp & Ca & Cm & Cf & _).
  fold c in Cp, Ca, Cm, Cf.
  destruct (loop_auto_reset_trace r (fst c)) as (Ap & Am & Aa & Af & _).
  fold a in Ap, Am, Aa, Af.
  destruct (loop_new_pulse_trace r (fst a)) as (Np & Nr & Na & Nf & _).
  fold n in Np, Nr, Na, Nf.
  destruct (loop_report_trace r (fst n)) as (Pp & Pr & Pa & Ps).
  fold p in Pp, Pr, Pa, Ps.
  split.
  - rewrite Ps. exact Nf.
  - rewrite !existsb_app, Cp, Ap, Np, Pp, Nr, Pr.
    rewrite (existsb_reset_banner (snd c)), (existsb_reset_banner (snd a)).
    rewrite Ca, Am, Af, Cf, Cm.
    destruct (newPulseReceived (shared (sketch b))),
      (press_registered (button_millis r) (button_level r) b),
      (existsb is_auto_banner (snd a)); reflexivity.
Qed.

Lemma loop_trace_example :
  let b := edge 9000 (edge 5000 (edge 2000 board_on)) in
  snd (loop (mkReadings 1000 1000 HIGH 0 0) b)
  = [PulseLine 1000 3 4000 608; PeriodicReport 0 1 3 3]
  /\ snd (loop (mkReadings 1000 1000 LOW 1000 0) b)
     = [ManualResetBanner; PeriodicReport 0 1 0 0].
Proof. split; reflexivity. Qed.

(** ** The periodic report after a reset *)

Lemma loop_report_due (r : Readings) (b : Board) :
  (DISPLAY_INTERVAL <=? U32.sub (loop_millis r) (lastDisplayTime b)) = true ->
  loop_report r b
  = (mkBoard (sketch b) (loop_millis r) (lastButtonState b) (lastButtonTime b)
             (pulseCount (shared (sketch b))),
     [PeriodicReport (loop_millis r / 1000 / 60) ((loop_millis r / 1000) mod 60)
        (pulseCount (shared (sketch b)))
        (U32.sub (pulseCount (shared (sketch b))) (lastPulseCount b))]).
Proof.
  intros Hdue. unfold loop_report. rewrite Hdue. reflexivity.
Qed.

Lemma checkButtonPress_count (millis : Z) (level : bool) (reset_millis : Z)
    (b : Board) :
  pulseCount (shared (sketch (fst (checkButtonPress millis level reset_millis b))))
  = if press_registered millis level b then 0
    else pulseCount (shared (sketch b)).
Proof.
  destruct (press_registered millis level b) eqn:Hpress.
  - rewrite (checkButtonPress_pressed _ _ _ _ Hpress). reflexivity.
  - destruct (checkButtonPress_not_pressed millis level reset_millis b Hpress)
      as (_ & -> & _). reflexivity.
Qed.

Lemma loop_auto_reset_count (r : Readings) (b : Board) :
  pulseCount (shared (sketch (fst (loop_auto_reset r b))))
  = if AUTO_RESET_INTERVAL
       <=? U32.sub (loop_millis r) (lastResetTime (sketch b))
    then 0 else pulseCount (shared (sketch b)).
Proof.
  rewrite loop_auto_reset_spec.
  destruct (AUTO_RESET_INTERVAL
            <=? U32.sub (loop_millis r) (lastResetTime (sketch b)));
    reflexivity.
Qed.

(** X12.  Neither reset touches [lastPulseCount], the count remembered from
    the last periodic report.  So when a reset runs in an iteration in
    which the report is due, the report that closes the iteration shows a
    total of 0 and, as pulses of the last second, [0 - lastPulseCount]
    modulo 2^32: with [lastPulseCount] pulses reported before, that is
    [2^32 - lastPulseCount], not a pulse count. *)
Theorem report_after_reset_wraps (r : Readings) (b : Board) :
  existsb is_reset_banner (snd (loop r b)) = true ->
  (DISPLAY_INTERVAL <=? U32.sub (loop_millis r) (lastDisplayTime b)) = true ->
  last (snd (loop r b))
  = Some (PeriodicReport (loop_millis r / 1000 / 60)
            ((loop_millis r / 1000) mod 60) 0
            (U32.wrap (- lastPulseCount b)))
  /\ (0 < lastPulseCount b < U32.modulus ->
      U32.wrap (- lastPulseCount b) = U32.modulus - lastPulseCount b)
  /\ lastPulseCount (fst (loop r b)) = 0.
Proof.
  intros Hreset Hdue.
  rewrite loop_stages in *. cbv zeta in *. cbn [fst snd] in *.
  set (c := checkButtonPress _ _ _ b) in *.
  set (a := loop_auto_reset r (fst c)) in *.
  set (n := loop_new_pulse r (fst a)) in *.
  destruct (checkButtonPress_trace (button_millis r) (button_level r)
              (manual_millis r) b) as (_ & Ca & Cm & _ & Cd & Cl).
  fold c in Ca, Cm, Cd, Cl.
  pose proof (checkButtonPress_count (button_millis r) (button_level r)
                (manual_millis r) b) as Cc.
  fold c in Cc.
  destruct (loop_auto_reset_trace r (fst c)) as (_ & Am & Aa & _ & Ad & Al).
  fold a in Am, Aa, Ad, Al.
  pose proof (loop_auto_reset_count r (fst c)) as Ac. fold a in Ac.
  destruct (loop_new_pulse_trace r (fst a))
    as (_ & Nr & _ & _ & Nc & _ & Nd & Nl).
  fold n in Nr, Nc, Nd, Nl.
  destruct (loop_report_trace r (fst n)) as (_ & Pr & _ & _).
  assert (Hzero : pulseCount (shared (sketch (fst n))) = 0).
  { rewrite Nc, Ac. rewrite <- Aa.
    rewrite !existsb_app, Nr, Pr, !orb_false_r in Hreset.
    rewrite (existsb_reset_banner (snd c)), (existsb_reset_banner (snd a)) in Hreset.
    rewrite Ca, Am, Cm, orb_false_r in Hreset. simpl in Hreset.
    destruct (existsb is_auto_banner (snd a)); [reflexivity |].
    rewrite Cc. rewrite orb_false_r in Hreset. rewrite Hreset. reflexivity. }
  assert (Hdue' : (DISPLAY_INTERVAL
                   <=? U32.sub (loop_millis r) (lastDisplayTime (fst n))) = true)
    by (rewrite Nd, Ad, Cd; exact Hdue).
  rewrite (loop_report_due r (fst n) Hdue'). cbn [fst snd].
  rewrite Hzero, Nl, Al, Cl.
  split; [| split].
  - rewrite !app_assoc. rewrite last_snoc. reflexivity.
  - intros Hcount. unfold U32.wrap. rewrite modulus_value in *.
    symmetry. apply (Z.mod_unique_pos _ _ (-1)); lia.
  - reflexivity.
Qed.

Lemma report_after_reset_wraps_witness :
  let b := fst (loop (mkReadings 1000 1000 HIGH 0 0)
                  (edge 9000 (edge 5000 (edge 2000 board_on)))) in
  lastPulseCount b = 3
  /\ last (snd (loop (mkReadings 2000 2000 LOW 2000 0) b))
     = Some (PeriodicReport 0 2 0 4294967293).
Proof.
  intros b. split; [reflexivity |].
  exact (proj1 (report_after_reset_wraps (mkReadings 2000 2000 LOW 2000 0) b
                  eq_refl eq_refl)).
Defined.

(** ** Manual and automatic reset in one iteration *)

Lemma checkButtonPress_reset_time (millis : Z) (level : bool)
    (reset_millis : Z) (b : Board) :
  press_registered millis level b = true ->
  lastResetTime (sketch (fst (checkButtonPress millis level reset_millis b)))
  = reset_millis.
Proof.
  intros Hpress. rewrite (checkButtonPress_pressed _ _ _ _ Hpress).
  reflexivity.
Qed.

Lemma loop_auto_banner (r : Readings) (b : Board) :
  existsb is_auto_banner (snd (loop r b))
  = (AUTO_RESET_INTERVAL
     <=? U32.sub (loop_millis r)
           (lastResetTime (sketch (fst
              (checkButtonPress (button_millis r) (button_level r)
                                (manual_millis r) b))))).
Proof.
  rewrite loop_stages. cbv zeta. cbn [fst snd].
  set (c := checkButtonPress _ _ _ b).
  set (a := loop_auto_reset r (fst c)).
  set (n := loop_new_pulse r (fst a)).
  destruct (checkButtonPress_trace (button_millis r) (button_level r)
              (manual_millis r) b) as (_ & Ca & _).
  fold c in Ca.
  destruct (loop_auto_reset_trace r (fst c)) as (_ & _ & Aa & _).
  fold a in Aa.
  destruct (loop_new_pulse_trace r (fst a)) as (_ & _ & Na & _).
  fold n in Na.
  destruct (loop_report_trace r (fst n)) as (_ & _ & Pa & _).
  rewrite !existsb_app, Ca, Na, Pa, Aa, orb_false_r. reflexivity.
Qed.

(** X13.  [loop] tests the automatic reset with the time it read at its
    top, while a manual reset in the same iteration stores a later reading
    of [millis()] in [lastResetTime].  When a press is registered, the
    automatic reset therefore follows in the same iteration exactly when
    the top-of-loop time minus the later reading is at least 30000 modulo
    2^32: never when the two readings are equal, and always when the clock
    moved on between them (by 1 ms, or by anything up to 2^32 - 30000). *)
Theorem manual_reset_then_auto_reset (r : Readings) (b : Board) :
  press_registered (button_millis r) (button_level r) b = true ->
  existsb is_auto_banner (snd (loop r b))
  = (AUTO_RESET_INTERVAL <=? U32.sub (loop_millis r) (manual_millis r))
  /\ (manual_millis r = loop_millis r ->
      existsb is_auto_banner (snd (loop r b)) = false)
  /\ (0 <= loop_millis r < manual_millis r ->
      manual_millis r - loop_millis r <= U32.modulus - AUTO_RESET_INTERVAL ->
      existsb is_auto_banner (snd (loop r b)) = true).
Proof.
  intros Hpress.
  assert (Hiff : existsb is_auto_banner (snd (loop r b))
                 = (AUTO_RESET_INTERVAL
                    <=? U32.sub (loop_millis r) (manual_millis r))).
  { rewrite loop_auto_banner, (checkButtonPress_reset_time _ _ _ _ Hpress).
    reflexivity. }
  split; [exact Hiff |]. split.
  - intros Hsame. rewrite Hiff, Hsame. unfold U32.sub.
    rewrite Z.sub_diag. reflexivity.
  - intros Hlater Hbound. rewrite Hiff.
    unfold AUTO_RESET_INTERVAL in *. rewrite modulus_value in Hbound.
    apply Z.leb_le. unfold U32.sub, U32.wrap. rewrite modulus_value.
    assert (Hm : (loop_millis r - manual_millis r) mod 4294967296
                 = 4294967296 - (manual_millis r - loop_millis r))
      by (symmetry; apply (Z.mod_unique_pos _ _ (-1)); lia).
    rewrite Hm. lia.
Qed.

Lemma manual_reset_then_auto_reset_witness :
  let b := edge 9000 (edge 5000 (edge 2000 board_on)) in
  snd (loop (mkReadings 1000 1000 LOW 1001 1001) b)
  = [ManualResetBanner; AutoResetBanner 0 30001; PeriodicReport 0 1 0 0]
  /\ existsb is_auto_banner (snd (loop (mkReadings 1000 1000 LOW 1001 1001) b))
     = true.
Proof.
  intros b. split; [reflexivity |].
  apply (proj2 (proj2 (manual_reset_then_auto_reset
                         (mkReadings 1000 1000 LOW 1001 1001) b eq_refl))).
  - simpl. lia.
  - vm_compute. discriminate.
Defined.

(** ** What the automatic reset reports *)

Lemma in_existsb (f : Printed -> bool) (x : Printed) (l : list Printed) :
  In x l -> f x = true -> existsb f l = true.
Proof.
  intros Hin Hf. apply existsb_exists. exists x. split; assumption.
Qed.

Lemma wrap_sub_wrap_r (a b : Z) : U32.sub a (U32.wrap b) = U32.wrap (a - b).
Proof.
  unfold U32.sub, U32.wrap. apply Zminus_mod_idemp_r.
Qed.

(** X14.  Whenever [loop] runs the automatic reset, the elapsed time it
    reports is 30000 ms plus the time from the top of the loop to the clock
    reading inside [autoResetCounter] (modulo 2^32): [lastResetTime] has
    been set to the top-of-loop time just before, so the report does not
    depend on when the period really began.  The total it reports is the
    count the reset clears (0 if a manual reset ran just before), and the
    reset timer restarts at the top-of-loop time. *)
Theorem auto_reset_report_values (r : Readings) (b : Board)
    (totalPulses elapsedTime : Z) :
  In (AutoResetBanner totalPulses elapsedTime) (snd (loop r b)) ->
  elapsedTime
  = U32.wrap (auto_millis r - loop_millis r + AUTO_RESET_INTERVAL)
  /\ totalPulses
     = (if press_registered (button_millis r) (button_level r) b
        then 0 else pulseCount (shared (sketch b)))
  /\ lastResetTime (sketch (fst (loop r b))) = loop_millis r
  /\ pulseCount (shared (sketch (fst (loop r b)))) = 0.
Proof.
  intros Hin.
  rewrite loop_stages in *. cbv zeta in *. cbn [fst snd] in *.
  set (c := checkButtonPress _ _ _ b) in *.
  set (a := loop_auto_reset r (fst c)) in *.
  set (n := loop_new_pulse r (fst a)) in *.
  destruct (checkButtonPress_trace (button_millis r) (button_level r)
              (manual_millis r) b) as (_ & Ca & _).
  fold c in Ca.
  pose proof (checkButtonPress_count (button_millis r) (button_level r)
                (manual_millis r) b) as Cc.
  fold c in Cc.
  destruct (loop_new_pulse_trace r (fst a))
    as (_ & _ & Na & _ & Nc & Nt & _).
  fold n in Na, Nc, Nt.
  destruct (loop_report_trace r (fst n)) as (_ & _ & Pa & Ps).
  rewrite Ps, Nc, Nt.
  assert (Hmid : In (AutoResetBanner totalPulses elapsedTime) (snd a)).
  { apply in_app_or in Hin as [Hin | Hin].
    - pose proof (in_existsb is_auto_banner _ _ Hin eq_refl) as Hx.
      rewrite Ca in Hx. discriminate Hx.
    - apply in_app_or in Hin as [Hin | Hin]; [exact Hin |].
      apply in_app_or in Hin as [Hin | Hin];
        pose proof (in_existsb is_auto_banner _ _ Hin eq_refl) as Hx;
        [rewrite Na in Hx | rewrite Pa in Hx]; discriminate Hx. }
  subst a. rewrite loop_auto_reset_spec in *.
  destruct (AUTO_RESET_INTERVAL
            <=? U32.sub (loop_millis r) (lastResetTime (sketch (fst c))));
    [| destruct Hmid].
  cbn [fst snd] in *.
  destruct Hmid as [Heq | []]. injection Heq as <- <-.
  split; [| split; [exact Cc | split; reflexivity]].
  unfold U32.sub at 2. rewrite wrap_sub_wrap_r. f_equal. lia.
Qed.

Lemma auto_reset_report_values_witness :
  let b := edge 9000 (edge 5000 (edge 2000 board_on)) in
  snd (loop (mkReadings 30007 30007 HIGH 0 30008) b)
  = [AutoResetBanner 3 30001; PeriodicReport 0 30 0 0]
  /\ 30001 = U32.wrap (30008 - 30007 + AUTO_RESET_INTERVAL).
Proof.
  intros b. split; [reflexivity |].
  apply (proj1 (auto_reset_report_values
                  (mkReadings 30007 30007 HIGH 0 30008) b 3 30001
                  ltac:(left; reflexivity))).
Defined.

(** ** The periodic report between resets *)

Lemma edges_spec (ts : list Z) (b : Board) :
  edges ts b
  = mkBoard (mkSketch (run ts (shared (sketch b))) (lastResetTime (sketch b)))
            (lastDisplayTime b) (lastButtonState b) (lastButtonTime b)
            (lastPulseCount b).
Proof.
  revert b. induction ts as [| t ts IH]; intros b.
  - destruct b as [[s reset] display state time count]. reflexivity.
  - change (edges (t :: ts) b) with (edges ts (edge t b)).
    rewrite IH. reflexivity.
Qed.

Lemma loop_auto_reset_not_due (r : Readings) (b : Board) :
  U32.sub (loop_millis r) (lastResetTime (sketch b)) < AUTO_RESET_INTERVAL ->
  loop_auto_reset r b = (b, []).
Proof.
  intros Hearly. rewrite loop_auto_reset_spec.
  destruct (Z.leb_spec AUTO_RESET_INTERVAL
              (U32.sub (loop_millis r) (lastResetTime (sketch b))));
    [lia | reflexivity].
Qed.

(** X15.  The periodic report counts edges against the count remembered
    from the last report.  Let any number of accepted edges come, then run
    an iteration in which the button does not change, the automatic reset
    is not due and the report is due.  The report that closes it shows the
    new count as total and, as pulses since the last report, the new count
    minus [lastPulseCount] modulo 2^32: the number of those edges when
    [lastPulseCount] was the count they started from (as every report
    leaves it), and a figure off by the old [lastPulseCount] when a reset
    has cleared the count in between.  Afterwards [lastPulseCount] is the
    count again. *)
Theorem report_counts_accepted_edges (r : Readings) (ts : list Z) (b : Board) :
  U32.in_range (pulseCount (shared (sketch b))) ->
  all_accepted ts (shared (sketch b)) ->
  button_level r = lastButtonState b ->
  U32.sub (loop_millis r) (lastResetTime (sketch b)) < AUTO_RESET_INTERVAL ->
  DISPLAY_INTERVAL <= U32.sub (loop_millis r) (lastDisplayTime b) ->
  last (snd (loop r (edges ts b)))
  = Some (PeriodicReport (loop_millis r / 1000 / 60)
            ((loop_millis r / 1000) mod 60)
            (U32.wrap (pulseCount (shared (sketch b)) + Z.of_nat (length ts)))
            (U32.wrap (pulseCount (shared (sketch b)) + Z.of_nat (length ts)
                       - lastPulseCount b)))
  /\ (lastPulseCount b = pulseCount (shared (sketch b)) ->
      U32.wrap (pulseCount (shared (sketch b)) + Z.of_nat (length ts)
                - lastPulseCount b)
      = U32.wrap (Z.of_nat (length ts)))
  /\ lastPulseCount (fst (loop r (edges ts b)))
     = pulseCount (shared (sketch (fst (loop r (edges ts b))))).
Proof.
  intros Hrange Hall Hidle Hearly Hdue.
  assert (Hcount : pulseCount (run ts (shared (sketch b)))
                   = U32.wrap (pulseCount (shared (sketch b))
                               + Z.of_nat (length ts))).
  { rewrite <- (run_accepted_count ts _ Hall). symmetry. apply wrap_small.
    pose proof (run_count_in_range ts _ Hrange) as Hr.
    unfold U32.in_range in Hr. rewrite modulus_value in Hr. exact Hr. }
  split; [| split].
  2: { intros ->. f_equal. lia. }
  all: rewrite loop_stages; cbv zeta; cbn [fst snd];
    rewrite edges_spec.
  all: set (b' := mkBoard _ _ _ _ _).
  all: assert (Hc : checkButtonPress (button_millis r) (button_level r)
                      (manual_millis r) b' = (b', []))
    by (rewrite Hidle; apply (checkButtonPress_same_level _ _ b')).
  all: rewrite Hc; cbn [fst snd].
  all: rewrite (loop_auto_reset_not_due r b') by exact Hearly; cbn [fst snd].
  all: destruct (loop_new_pulse_trace r b')
    as (_ & _ & _ & _ & Nc & _ & Nd & Nl).
  all: set (n := loop_new_pulse r b') in *.
  all: assert (Hdue' : (DISPLAY_INTERVAL
                        <=? U32.sub (loop_millis r) (lastDisplayTime (fst n)))
                       = true)
    by (rewrite Nd; apply Z.leb_le; exact Hdue).
  all: rewrite (loop_report_due r (fst n) Hdue'); cbn [fst snd].
  - rewrite Nc, Nl. simpl. rewrite Hcount.
    rewrite last_snoc. do 2 f_equal.
    unfold U32.sub, U32.wrap. rewrite Zminus_mod_idemp_l. reflexivity.
  - reflexivity.
Qed.

Lemma report_counts_accepted_edges_witness :
  let b := fst (loop (mkReadings 1000 1000 HIGH 0 0)
                  (edge 9000 (edge 5000 (edge 2000 board_on)))) in
  last (snd (loop (mkReadings 2000 2000 HIGH 0 0) (edges [14000; 20000] b)))
  = Some (PeriodicReport 0 2 5 2).
Proof.
  intros b.
  refine (proj1 (report_counts_accepted_edges
                   (mkReadings 2000 2000 HIGH 0 0) [14000; 20000] b
                   _ _ eq_refl eq_refl _)).
  - vm_compute. split; [discriminate | reflexivity].
  - vm_compute. repeat split; reflexivity.
  - vm_compute. discriminate.
Defined.

(** ** The reset timer *)





(** ** Edges faster than the loop *)

Lemma pulseInterrupt_accept_flag (t : Z) (s : State) :
  currentDebounceTime s < edge_interval t s ->
  newPulseReceived (pulseInterrupt t s) = true.
Proof.
  intros Hacc. unfold pulseInterrupt.
  apply Z.ltb_lt in Hacc. rewrite Hacc. reflexivity.
Qed.

Lemma run_accepted_flag (ts : list Z) (s : State) :
  ts <> [] -> all_accepted ts s -> newPulseReceived (run ts s) = true.
Proof.
  revert s. induction ts as [| t ts IH]; intros s Hne Hall; [congruence |].
  destruct Hall as [Ht Hrest]. rewrite run_cons.
  destruct ts as [| t' ts].
  - apply pulseInterrupt_accept_flag, Ht.
  - apply IH; [discriminate | exact Hrest].
Qed.

(** X17.  The pending flag holds no count: however many edges are accepted
    between two iterations of [loop], the next iteration (with no button
    change and no automatic reset due) prints one pulse line only.  It
    carries the top-of-loop time and the count, interval and threshold as
    the last of those edges left them; all the edges are counted, but the
    earlier ones never get a line. *)
Theorem one_pulse_line_per_iteration (r : Readings) (ts : list Z) (b : Board) :
  ts <> [] ->
  all_accepted ts (shared (sketch b)) ->
  button_level r = lastButtonState b ->
  U32.sub (loop_millis r) (lastResetTime (sketch b)) < AUTO_RESET_INTERVAL ->
  let s' := run ts (shared (sketch b)) in
  exists rest,
    snd (loop r (edges ts b))
    = PulseLine (loop_millis r) (pulseCount s') (pulseInterval s')
                (currentDebounceTime s') :: rest
    /\ existsb is_pulse_line rest = false
    /\ U32.wrap (pulseCount s')
       = U32.wrap (pulseCount (shared (sketch b)) + Z.of_nat (length ts)).
Proof.
  intros Hne Hall Hidle Hearly s'.
  pose proof (run_accepted_flag ts _ Hne Hall) as Hflag. fold s' in Hflag.
  rewrite loop_stages. cbv zeta. cbn [fst snd].
  rewrite edges_spec. fold s'.
  set (b' := mkBoard _ _ _ _ _).
  assert (Hc : checkButtonPress (button_millis r) (button_level r)
                 (manual_millis r) b' = (b', []))
    by (rewrite Hidle; apply (checkButtonPress_same_level _ _ b')).
  rewrite Hc. cbn [fst snd].
  rewrite (loop_auto_reset_not_due r b') by exact Hearly. cbn [fst snd].
  assert (Hn : loop_new_pulse r b'
               = (set_sketch (mkSketch (set_newPulseReceived false s')
                                       (lastResetTime (sketch b))) b',
                  [PulseLine (loop_millis r) (pulseCount s') (pulseInterval s')
                             (currentDebounceTime s')])).
  { unfold loop_new_pulse. subst b'. cbn [sketch shared]. rewrite Hflag.
    reflexivity. }
  rewrite Hn. cbn [fst snd].
  eexists. split; [reflexivity |]. split.
  - apply (loop_report_trace r).
  - apply run_accepted_count, Hall.
Qed.

Lemma one_pulse_line_per_iteration_witness :
  exists rest,
    snd (loop (mkReadings 1000 1000 HIGH 0 0)
           (edges [2000; 5000; 9000] board_on))
    = PulseLine 1000 3 4000 608 :: rest
    /\ existsb is_pulse_line rest = false.
Proof.
  assert (Hall : all_accepted [2000; 5000; 9000] (shared (sketch board_on))).
  { vm_compute. repeat split; reflexivity. }
  destruct (one_pulse_line_per_iteration (mkReadings 1000 1000 HIGH 0 0)
              [2000; 5000; 9000] board_on ltac:(discriminate) Hall
              eq_refl eq_refl) as (rest & Hout & Hrest & _).
  exists rest. split; [exact Hout | exact Hrest].
Defined.

(** * Clock wrap-around *)

(** X18.  [micros()] wraps every 2^32 us.  The interval [pulseInterrupt]
    computes by unsigned subtraction is the time [d] since the last
    accepted edge modulo 2^32: the true time whenever it is below 2^32 us,
    also across a wrap of the clock.  An edge that comes [2^32] us or more
    after the last one is measured short by a multiple of 2^32 and is
    discarded as a bounce when the remainder is within the threshold. *)
Theorem interval_across_clock_wrap (d : Z) (s : State) :
  0 <= d ->
  let t := U32.wrap (lastPulseTime s + d) in
  edge_interval t s = U32.wrap d
  /\ (d < U32.modulus -> edge_interval t s = d)
  /\ (d < U32.modulus -> currentDebounceTime s < d ->
      pulseInterval (pulseInterrupt t s) = d
      /\ lastPulseTime (pulseInterrupt t s) = t)
  /\ (U32.wrap d <= currentDebounceTime s -> pulseInterrupt t s = s).
Proof.
  intros Hd t.
  assert (Hint : edge_interval t s = U32.wrap d).
  { unfold edge_interval, U32.sub, t, U32.wrap.
    rewrite Zminus_mod_idemp_l. f_equal. lia. }
  assert (Hsmall : d < U32.modulus -> edge_interval t s = d).
  { intros Hlt. rewrite Hint. apply wrap_small.
    rewrite modulus_value in Hlt. lia. }
  split; [exact Hint |]. split; [exact Hsmall |]. split.
  - intros Hlt Hacc. specialize (Hsmall Hlt).
    unfold pulseInterrupt. rewrite Hsmall.
    replace (currentDebounceTime s <? d) with true
      by (symmetry; apply Z.ltb_lt; exact Hacc).
    cbv zeta. expose_update. split; reflexivity.
  - intros Hnear. apply pulseInterrupt_bounce. rewrite Hint. exact Hnear.
Qed.

Lemma interval_across_clock_wrap_witness :
  let s := mkState 7 4294967000 3000 false 300 [3000; 3000; 3000; 3000; 3000] 2 in
  U32.wrap (lastPulseTime s + 4000) = 3704
  /\ pulseInterval (pulseInterrupt 3704 s) = 4000
  /\ pulseInterrupt (U32.wrap (lastPulseTime s + 4294967396)) s = s.
Proof.
  intros s. split; [reflexivity |]. split.
  - apply (proj1 (proj2 (proj2 (interval_across_clock_wrap 4000 s
                                  ltac:(discriminate))))
                 eq_refl eq_refl).
  - apply (proj2 (proj2 (proj2 (interval_across_clock_wrap 4294967396 s
                                  ltac:(discriminate))))).
    vm_compute. discriminate.
Defined.

(** * Repeated identical intervals *)







(** * The acceptance window *)

Lemma running_loop (r : Readings) (b : Board) :
  running b -> running (fst (loop r b)).
Proof.
  intros Hrun. rewrite loop_stages. cbv zeta. cbn [fst].
  apply running_report, running_new_pulse, running_auto_reset, running_button.
  exact Hrun.
Qed.

Lemma checkButtonPress_inv (millis : Z) (level : bool) (reset_millis : Z)
    (b : Board) :
  debounce_inv (shared (sketch b)) ->
  debounce_inv
    (shared (sketch (fst (checkButtonPress millis level reset_millis b)))).
Proof.
  intros Hinv.
  destruct (press_registered millis level b) eqn:Hpress.
  - rewrite (checkButtonPress_pressed _ _ _ _ Hpress). cbn [fst sketch].
    apply (reset_inv reset_millis (sketch b)).
  - destruct (checkButtonPress_not_pressed millis level reset_millis b Hpress)
      as (_ & -> & _).
    exact Hinv.
Qed.

Lemma loop_auto_reset_inv (r : Readings) (b : Board) :
  debounce_inv (shared (sketch b)) ->
  debounce_inv (shared (sketch (fst (loop_auto_reset r b)))).
Proof.
  intros Hinv. rewrite loop_auto_reset_spec.
  destruct (AUTO_RESET_INTERVAL
            <=? U32.sub (loop_millis r) (lastResetTime (sketch b)));
    [| exact Hinv].
  cbn [fst]. apply (reset_inv 0 (mkSketch (shared (sketch b)) (loop_millis r))).
Qed.

Lemma loop_new_pulse_inv (r : Readings) (b : Board) :
  debounce_inv (shared (sketch b)) ->
  debounce_inv (shared (sketch (fst (loop_new_pulse r b)))).
Proof.
  intros Hinv. unfold loop_new_pulse.
  destruct (newPulseReceived (shared (sketch b))); exact Hinv.
Qed.

(** The invariant of the debounce state holds in every state the sketch
    runs through. *)
Lemma running_inv (b : Board) :
  running b -> debounce_inv (shared (sketch b)).
Proof.
  induction 1 as [| t b _ IH | m l rm b _ IH | r b _ IH | r b _ IH | r b _ IH].
  - unfold debounce_inv, DEBOUNCE_TIME_US_MIN, DEBOUNCE_TIME_US_MAX; simpl.
    unfold DEBOUNCE_TIME_US_DEFAULT. lia.
  - apply (pulseInterrupt_inv t (shared (sketch b))), IH.
  - apply checkButtonPress_inv, IH.
  - apply loop_auto_reset_inv, IH.
  - apply loop_new_pulse_inv, IH.
  - destruct (loop_report_trace r b) as (_ & _ & _ & ->). exact IH.
Qed.

(** X2.  In every state the sketch runs through after power-on (edge
    interrupts and the stages of [loop] in any order and with any clock and
    pin readings: button polls with their manual resets, automatic resets,
    the clearing of the pending flag, periodic reports) the threshold lies
    between 100 and 5000 us.  So there an edge at most 100 us after the
    last accepted one is always discarded (the state stays as it was) and
    an edge more than 5000 us after it is always accepted (counted,
    time-stamped and flagged), whatever the history holds. *)
Theorem running_acceptance_window (b : Board) (t : Z) :
  running b ->
  let s := shared (sketch b) in
  DEBOUNCE_TIME_US_MIN <= currentDebounceTime s <= DEBOUNCE_TIME_US_MAX
  /\ (edge_interval t s <= DEBOUNCE_TIME_US_MIN -> pulseInterrupt t s = s)
  /\ (DEBOUNCE_TIME_US_MAX < edge_interval t s ->
      pulseCount (pulseInterrupt t s) = U32.add (pulseCount s) 1
      /\ lastPulseTime (pulseInterrupt t s) = t
      /\ pulseInterval (pulseInterrupt t s) = edge_interval t s
      /\ newPulseReceived (pulseInterrupt t s) = true).
Proof.
  intros Hrun s.
  destruct (running_inv b Hrun) as [Hthr Hidx]. fold s in Hthr, Hidx.
  split; [exact Hthr |].
  unfold DEBOUNCE_TIME_US_MIN, DEBOUNCE_TIME_US_MAX in *.
  split.
  - intros Hnear. apply pulseInterrupt_bounce. lia.
  - intros Hfar.
    destruct (pulseInterrupt_accept_effect t s Hidx ltac:(lia))
      as (Hc & Hi & Hl & _ & _ & _ & Hp).
    repeat (split; [assumption |]). exact Hp.
Qed.

Lemma running_acceptance_window_witness :
  let b := edge 5000
             (fst (loop (mkReadings 1000 1000 HIGH 0 0) (edge 2000 board_on))) in
  newPulseReceived
    (shared (sketch (fst (loop (mkReadings 1000 1000 HIGH 0 0)
                            (edge 2000 board_on))))) = false
  /\ pulseInterrupt 5100 (shared (sketch b)) = shared (sketch b)
  /\ pulseCount (pulseInterrupt 10001 (shared (sketch b))) = 3.
Proof.
  intros b.
  assert (Hrun : running b).
  { apply running_edge, running_loop, running_edge, running_on. }
  split; [reflexivity |]. split.
  - apply (proj1 (proj2 (running_acceptance_window b 5100 Hrun))).
    vm_compute. discriminate.
  - apply (proj1 (proj2 (proj2 (running_acceptance_window b 10001 Hrun))
                    ltac:(vm_compute; reflexivity))).
Defined.
